(** * VSCode-R-Debugger: configuration resolution and transport selection

    A shallow embedding of [src/extension.ts] (the three configuration
    providers and the debug adapter descriptor factory) together with the
    configuration types of [debugProtocolModifications.ts].

    A debug configuration is a JavaScript object whose properties hold
    arbitrary values ([vscode.DebugConfiguration] has the index signature
    [[key: string]: any]); it is modelled as a finite map from property
    names to JavaScript values.  The operators the source applies to these
    values ([!], [||], [&&], [??], [===], [in], spread) are written out with
    their JavaScript meaning. *)

From Stdlib Require Import ZArith String Ascii List Bool.
From stdpp Require Import base option strings gmap fin_maps.

Local Open Scope string_scope.
Local Open Scope Z_scope.
Set Warnings "-register-all".

(* ===================================================================== *)
(** ** JavaScript values and operators *)
(* ===================================================================== *)

Module Js.

(** Numbers are represented by their integer value (ports are integers);
    [NaN] is kept apart because it is the one other falsy number. *)
Inductive Value : Type :=
| Undefined
| Null
| Bool (b : bool)
| Num (n : Z)
| NaN
| Str (s : string)
| Arr (items : list Value)
| Obj (fields : list (string * Value)).

(** [ToBoolean]: what [if (v)], [!v], [v || w] and [v && w] test. *)
Definition toBoolean (v : Value) : bool :=
  match v with
  | Undefined | Null | NaN => false
  | Bool b => b
  | Num n => negb (n =? 0)
  | Str s => match s with EmptyString => false | String _ _ => true end
  | Arr _ | Obj _ => true
  end.

(** What [v ?? w] tests. *)
Definition nullish (v : Value) : bool :=
  match v with
  | Undefined | Null => true
  | _ => false
  end.

(** [!v] *)
Definition not (v : Value) : bool := negb (toBoolean v).

(** [v || w] *)
Definition or (v w : Value) : Value := if toBoolean v then v else w.

(** [v && w] *)
Definition and (v w : Value) : Value := if toBoolean v then w else v.

(** [v ?? w] *)
Definition coalesce (v w : Value) : Value := if nullish v then w else v.

(** [v === 'lit'] for a string literal. *)
Definition strictEqStr (v : Value) (lit : string) : bool :=
  match v with
  | Str s => String.eqb s lit
  | _ => false
  end.

(** Objects are maps from property names to values. *)
Abbreviation Object := (gmap string Value).

(** [o.k]: reading a missing property gives [undefined]. *)
Definition get (o : Object) (k : string) : Value :=
  default Undefined (o !! k).

(** [o.k = v] *)
Definition set (k : string) (v : Value) (o : Object) : Object :=
  <[k := v]> o.

(** ['k' in o] *)
Definition hasProperty (k : string) (o : Object) : bool :=
  match o !! k with Some _ => true | None => false end.

(** An object literal [{k1: v1, k2: v2, ...}]; a later duplicate wins. *)
Definition object (props : list (string * Value)) : Object :=
  fold_left (fun o kv => set (fst kv) (snd kv) o) props ∅.

(** Errors that the modelled code can raise. *)
Inductive Exception : Type :=
| Error (message : string)
| TypeError (message : string).

(** The outcome of a call: a returned value or a thrown exception. *)
Inductive Completion (A : Type) : Type :=
| Return (a : A)
| Throw (e : Exception).
Arguments Return {A} a.
Arguments Throw {A} e.

Definition bind {A B} (c : Completion A) (k : A -> Completion B)
  : Completion B :=
  match c with
  | Return a => k a
  | Throw e => Throw e
  end.

Definition returns {A} (c : Completion A) : bool :=
  match c with Return _ => true | Throw _ => false end.

(** The elements of [...v]: arrays and strings are iterable, the other
    values a configuration can hold are not.  An array of any length is
    spread here, whereas an engine refuses an argument list beyond its own
    limit with a [RangeError], and a string is split into its bytes rather
    than its code points; the statements about spreading [commandLineArgs]
    are phrased so that they do not depend on either. *)
Definition spread (v : Value) : Completion (list Value) :=
  match v with
  | Arr items => Return items
  | Str s => Return (map (fun c => Str (String c EmptyString))
                         (list_ascii_of_string s))
  | _ => Throw (TypeError "object is not iterable")
  end.

End Js.

Import Js.

Notation "x <- c ;; k" := (Js.bind c (fun x => k))
  (at level 100, c at next level, right associativity).

(* ===================================================================== *)
(** ** The host: what the code reads from [vscode], [fs] and [path] *)
(* ===================================================================== *)

Record Uri := { scheme : string; fsPath : string }.
Record TextDocument := { doc_uri : Uri }.
Record TextEditor := { document : TextDocument }.
Record WorkspaceFolder := { folder_uri : Uri }.

(** [vscode.window.activeTextEditor], [fs.existsSync] and [path.join]. *)
Record Host := {
  activeTextEditor : option TextEditor;
  existsSync : string -> bool;
  path_join : string -> string -> string
}.

(** The help panel of the R extension, an opaque handle. *)
Inductive HelpPanel : Type := HelpPanelHandle (id : nat).

(** [new DebugAdapter(helpPanel, commandLineArgs)] *)
Record DebugAdapter := {
  adapter_helpPanel : option HelpPanel;
  adapter_commandLineArgs : list Value
}.

Inductive DebugAdapterDescriptor : Type :=
| DebugAdapterInlineImplementation (implementation : DebugAdapter)
| DebugAdapterServer (port host : Value).

Record DebugSession := { configuration : Object }.

(** [StrictDebugConfiguration], the union the resolver's casts produce. *)
Inductive StrictDebugConfiguration : Type :=
| FunctionDebugConfiguration (config : Object)
| FileDebugConfiguration (config : Object)
| WorkspaceDebugConfiguration (config : Object)
| AttachConfiguration (config : Object).

Definition configOf (strictConfig : StrictDebugConfiguration) : Object :=
  match strictConfig with
  | FunctionDebugConfiguration config
  | FileDebugConfiguration config
  | WorkspaceDebugConfiguration config
  | AttachConfiguration config => config
  end.

(** [doc && doc.document.uri.scheme === 'file']; the source only ever tests
    the truthiness of this value. *)
Definition docValid (host : Host) : bool :=
  match activeTextEditor host with
  | Some doc => String.eqb (scheme (doc_uri (document doc))) "file"
  | None => false
  end.

(** [(folder ? '${workspaceFolder}' : (docValid ? '${fileDirname}' : '.'))] *)
Definition wd (host : Host) (folder : option WorkspaceFolder) : string :=
  match folder with
  | Some _ => "${workspaceFolder}"
  | None => if docValid host then "${fileDirname}" else "."
  end.

(** [folder && fs.existsSync(path.join(folder.uri.fsPath, 'DESCRIPTION'))];
    again only its truthiness is used. *)
Definition hasDescription (host : Host) (folder : option WorkspaceFolder)
  : bool :=
  match folder with
  | Some f => existsSync host (path_join host (fsPath (folder_uri f)) "DESCRIPTION")
  | None => false
  end.

(* ===================================================================== *)
(** ** class DebugAdapterDescriptorFactory *)
(* ===================================================================== *)

Module DebugAdapterDescriptorFactory.

Record t := { helpPanel : option HelpPanel }.

(** A word between double quotes, as the error message has them. *)
Definition quoted (s : string) : string :=
  let dq := String (ascii_of_nat 34) EmptyString in dq ++ s ++ dq.

(** The message of the error thrown for an invalid [request]. *)
Definition invalidRequestMessage : string :=
  "Invalid entry " ++ quoted "request"
  ++ " in debug config. Valid entries are "
  ++ quoted "launch" ++ " and " ++ quoted "attach".

Definition new (helpPanel : option HelpPanel) : t :=
  {| helpPanel := helpPanel |}.

Definition createDebugAdapterDescriptor (this : t) (session : DebugSession)
  : Completion DebugAdapterDescriptor :=
  let config := configuration session in
  if strictEqStr (get config "request") "launch" then
    commandLineArgs <-
      (if hasProperty "commandLineArgs" config
       then items <- spread (get config "commandLineArgs") ;;
            Return (app nil items)
       else Return nil) ;;
    Return (DebugAdapterInlineImplementation
              {| adapter_helpPanel := helpPanel this;
                 adapter_commandLineArgs := commandLineArgs |})
  else if strictEqStr (get config "request") "attach" then
    let port := or (get config "port") (Num 18721) in
    let host := or (get config "host") (Str "localhost") in
    Return (DebugAdapterServer port host)
  else
    Throw (Error invalidRequestMessage).

End DebugAdapterDescriptorFactory.

(* ===================================================================== *)
(** ** class InitialDebugConfigurationProvider *)
(* ===================================================================== *)

Module InitialDebugConfigurationProvider.

Definition provideDebugConfigurations (folder : option WorkspaceFolder)
  : list StrictDebugConfiguration :=
  [ WorkspaceDebugConfiguration (object
      [ ("type", Str "R-Debugger");
        ("name", Str "Launch R-Workspace");
        ("request", Str "launch");
        ("debugMode", Str "workspace");
        ("workingDirectory", Str "${workspaceFolder}") ]);
    FileDebugConfiguration (object
      [ ("type", Str "R-Debugger");
        ("name", Str "Debug R-File");
        ("request", Str "launch");
        ("debugMode", Str "file");
        ("workingDirectory", Str "${workspaceFolder}");
        ("file", Str "${file}") ]);
    FunctionDebugConfiguration (object
      [ ("type", Str "R-Debugger");
        ("name", Str "Debug R-Function");
        ("request", Str "launch");
        ("debugMode", Str "function");
        ("workingDirectory", Str "${workspaceFolder}");
        ("file", Str "${file}");
        ("mainFunction", Str "main");
        ("allowGlobalDebugging", Bool false) ]);
    WorkspaceDebugConfiguration (object
      [ ("type", Str "R-Debugger");
        ("name", Str "Debug R-Package");
        ("request", Str "launch");
        ("debugMode", Str "workspace");
        ("workingDirectory", Str "${workspaceFolder}");
        ("includePackageScopes", Bool true);
        ("loadPackages", Arr [Str "."]) ]);
    AttachConfiguration (object
      [ ("type", Str "R-Debugger");
        ("request", Str "attach");
        ("name", Str "Attach to R process");
        ("splitOverwrittenOutput", Bool true) ]) ].

End InitialDebugConfigurationProvider.

(* ===================================================================== *)
(** ** class DynamicDebugConfigurationProvider *)
(* ===================================================================== *)

Module DynamicDebugConfigurationProvider.

Definition workspaceTemplate (wd : string) : StrictDebugConfiguration :=
  WorkspaceDebugConfiguration (object
    [ ("type", Str "R-Debugger");
      ("request", Str "launch");
      ("name", Str "Launch R-Workspace");
      ("debugMode", Str "workspace");
      ("workingDirectory", Str wd);
      ("allowGlobalDebugging", Bool true) ]).

Definition fileTemplate (wd : string) : StrictDebugConfiguration :=
  FileDebugConfiguration (object
    [ ("type", Str "R-Debugger");
      ("request", Str "launch");
      ("name", Str "Debug R-File");
      ("debugMode", Str "file");
      ("workingDirectory", Str wd);
      ("file", Str "${file}");
      ("allowGlobalDebugging", Bool true) ]).

Definition functionTemplate (wd : string) : StrictDebugConfiguration :=
  FunctionDebugConfiguration (object
    [ ("type", Str "R-Debugger");
      ("request", Str "launch");
      ("name", Str "Debug R-Function");
      ("debugMode", Str "function");
      ("workingDirectory", Str wd);
      ("file", Str "${file}");
      ("mainFunction", Str "main");
      ("allowGlobalDebugging", Bool false) ]).

Definition packageTemplate (wd : string) : StrictDebugConfiguration :=
  WorkspaceDebugConfiguration (object
    [ ("type", Str "R-Debugger");
      ("name", Str "Debug R-Package");
      ("request", Str "launch");
      ("debugMode", Str "workspace");
      ("workingDirectory", Str wd);
      ("loadPackages", Arr [Str "."]);
      ("includePackageScopes", Bool true);
      ("allowGlobalDebugging", Bool true) ]).

Definition attachTemplate : StrictDebugConfiguration :=
  AttachConfiguration (object
    [ ("type", Str "R-Debugger");
      ("request", Str "attach");
      ("name", Str "Attach to R process");
      ("splitOverwrittenOutput", Bool true) ]).

(** [configs.push(x)] *)
Definition push (x : StrictDebugConfiguration)
  (configs : list StrictDebugConfiguration) : list StrictDebugConfiguration :=
  app configs [x].

Definition provideDebugConfigurations (host : Host)
  (folder : option WorkspaceFolder) : list StrictDebugConfiguration :=
  let docValid := docValid host in
  let wd := wd host folder in
  let hasDescription := hasDescription host folder in
  let configs := [] in
  let configs := push (workspaceTemplate wd) configs in
  let configs :=
    if docValid
    then push (functionTemplate wd) (push (fileTemplate wd) configs)
    else configs in
  let configs :=
    if hasDescription then push (packageTemplate wd) configs else configs in
  let configs := push attachTemplate configs in
  configs.

End DynamicDebugConfigurationProvider.

(* ===================================================================== *)
(** ** class DebugConfigurationResolver *)
(* ===================================================================== *)

Module DebugConfigurationResolver.

Record t := {
  customPort : Z;
  customHost : string;
  supportsHelpViewer : bool
}.

(** [constructor(customPort, customHost = 'localhost',
                 supportsHelpViewer = false)] *)
Definition new (customPort : Z) (customHost : option string)
  (supportsHelpViewer : option bool) : t :=
  {| customPort := customPort;
     customHost := default "localhost" customHost;
     supportsHelpViewer := default false supportsHelpViewer |}.

(** [!config.type && !config.request && !config.name] *)
Definition launchedWithoutConfig (config : Object) : bool :=
  not (get config "type") && not (get config "request")
  && not (get config "name").

(** The configuration synthesised when the debugger is launched without
    one. *)
Definition defaultConfig (docValid hasDescription : bool) (wd : string)
  : Object :=
  if hasDescription then
    object
      [ ("type", Str "R-Debugger");
        ("name", Str "Debug R-Package");
        ("request", Str "launch");
        ("debugMode", Str "workspace");
        ("workingDirectory", Str wd);
        ("loadPackages", Arr [Str "."]);
        ("includePackageScopes", Bool true);
        ("allowGlobalDebugging", Bool true) ]
  else if docValid then
    object
      [ ("type", Str "R-Debugger");
        ("name", Str "Launch R Debugger");
        ("request", Str "launch");
        ("debugMode", Str "file");
        ("file", Str "${file}");
        ("workingDirectory", Str wd) ]
  else
    object
      [ ("type", Str "R-Debugger");
        ("name", Str "Launch R Debugger");
        ("request", Str "launch");
        ("debugMode", Str "workspace");
        ("workingDirectory", Str wd) ].

(** Lines 279-280: the defaults of [debugMode] and [allowGlobalDebugging]. *)
Definition fillDefaults (docValid : bool) (config : Object) : Object :=
  let config :=
    set "debugMode"
        (or (get config "debugMode")
            (Str (if docValid then "file" else "workspace"))) config in
  set "allowGlobalDebugging"
      (coalesce (get config "allowGlobalDebugging") (Bool true)) config.

(** Lines 283-298: custom capabilities and socket info. *)
Definition fillCapabilities (this : t) (config : Object) : Object :=
  if strictEqStr (get config "request") "launch" then
    let config := set "supportsStdoutReading" (Bool true) config in
    let config := set "supportsWriteToStdinEvent" (Bool true) config in
    let config := set "supportsShowingPromptRequest" (Bool true) config in
    let config :=
      set "overwriteHelp"
          (coalesce (get config "overwriteHelp") (Bool true)) config in
    set "overwriteHelp"
        (and (get config "overwriteHelp") (Bool (supportsHelpViewer this)))
        config
  else if strictEqStr (get config "request") "attach" then
    let config :=
      set "customPort"
          (coalesce (get config "customPort") (Num (customPort this)))
          config in
    let config :=
      set "customHost"
          (or (get config "customHost") (Str (customHost this))) config in
    let config :=
      set "useCustomSocket"
          (coalesce (get config "useCustomSocket") (Bool true)) config in
    let config :=
      set "supportsWriteToStdinEvent"
          (coalesce (get config "supportsWriteToStdinEvent") (Bool true))
          config in
    set "overwriteLoadAll" (Bool false) config
  else config.

(** Lines 300-322: required fields of the debug mode, and the cast. *)
Definition matchDebugMode (wd : string) (config : Object)
  : option StrictDebugConfiguration :=
  let debugMode := get config "debugMode" in
  if strictEqStr (get config "request") "attach" then
    Some (AttachConfiguration config)
  else if strictEqStr debugMode "function" then
    let config :=
      set "workingDirectory"
          (or (get config "workingDirectory") (Str wd)) config in
    let config := set "file" (or (get config "file") (Str "${file}")) config in
    let config :=
      set "mainFunction" (or (get config "mainFunction") (Str "main"))
          config in
    Some (FunctionDebugConfiguration config)
  else if strictEqStr debugMode "file" then
    let config :=
      set "workingDirectory"
          (or (get config "workingDirectory") (Str wd)) config in
    let config := set "file" (or (get config "file") (Str "${file}")) config in
    Some (FileDebugConfiguration config)
  else if strictEqStr debugMode "workspace" then
    let config :=
      set "workingDirectory"
          (or (get config "workingDirectory") (Str wd)) config in
    Some (WorkspaceDebugConfiguration config)
  else None.

(** The source assigns into the caller's object (or into the synthesised
    one) and returns that same object; the map returned here is its final
    state.  The result is the strict configuration, or [None] for [null]. *)
Definition resolveDebugConfiguration (this : t) (host : Host)
  (folder : option WorkspaceFolder) (config : Object)
  : Completion (option StrictDebugConfiguration) :=
  let docValid := docValid host in
  let wd := wd host folder in
  let hasDescription := hasDescription host folder in
  let config :=
    if launchedWithoutConfig config
    then defaultConfig docValid hasDescription wd
    else config in
  let config := fillDefaults docValid config in
  let config := fillCapabilities this config in
  let strictConfig := matchDebugMode wd config in
  Return strictConfig.

End DebugConfigurationResolver.

(* ===================================================================== *)
(** ** function activate *)
(* ===================================================================== *)

(** [activate] is asynchronous and works by its effects on the extension
    context.  It is modelled as a function from what it reads (the values
    it awaits included) to the effects it has. *)

(** The API object of the R extension ([rExtensionApi]). *)
Record RExtension := { api_helpPanel : option HelpPanel }.

Inductive DebugConfigurationProvider : Type :=
| ResolverProvider (resolver : DebugConfigurationResolver.t)
| DynamicProvider
| InitialProvider.

Inductive DebugConfigurationProviderTriggerKind : Type :=
| Initial
| Dynamic.

(** What [activate] pushes on [context.subscriptions]. *)
Inductive Disposable : Type :=
| TerminalHandlerDisposable
| DebugConfigurationProviderRegistration (debugType : string)
    (provider : DebugConfigurationProvider)
    (triggerKind : option DebugConfigurationProviderTriggerKind)
| DebugAdapterDescriptorFactoryRegistration (debugType : string)
    (factory : DebugAdapterDescriptorFactory.t)
| CommandRegistration (command : string).

(** What [activate] reads from its context and collaborators:
    [context.globalState.get('ignoreDeprecatedConfig', false)]; the value
    [checkSettings()] resolves to; [vscode.extensions.getExtension]
    ([None] when the R extension is missing) with what its [activate()]
    resolves to ([Some None] when that is falsy); the port that
    [terminalHandler.portPromise] resolves to; and the setting
    [r.debugger.trackTerminals], read with the default [false]. *)
Record ExtensionContext := {
  ignoreDeprecatedConfig : Value;
  checkSettings : Value;
  rExtension : option (option RExtension);
  portPromise : Z;
  trackTerminalsSetting : Value
}.

(** The effects of [activate]: the subscriptions in the order they are
    pushed, the update of the global state that the deprecation check
    makes once [checkSettings()] has resolved (none when the check is
    skipped), and whether [trackTerminals] is called. *)
Record Activation := {
  subscriptions : list Disposable;
  globalStateUpdate : option (string * Value);
  tracksTerminals : bool
}.

(** [v !== true] *)
Definition strictNeTrue (v : Value) : bool :=
  match v with Bool true => false | _ => true end.

Definition activate (context : ExtensionContext) : Activation :=
  let globalStateUpdate :=
    if strictNeTrue (ignoreDeprecatedConfig context)
    then Some ("ignoreDeprecatedConfig", checkSettings context)
    else None in
  let rHelpPanel :=
    match rExtension context with
    | Some (Some api) => api_helpPanel api
    | Some None | None => None
    end in
  let supportsHelpViewer :=
    match rHelpPanel with Some _ => true | None => false end in
  let port := portPromise context in
  let subscriptions := [TerminalHandlerDisposable] in
  let resolver :=
    DebugConfigurationResolver.new port (Some "localhost")
      (Some supportsHelpViewer) in
  let subscriptions :=
    app subscriptions
      [DebugConfigurationProviderRegistration "R-Debugger"
         (ResolverProvider resolver) None] in
  let subscriptions :=
    app subscriptions
      [DebugConfigurationProviderRegistration "R-Debugger" DynamicProvider
         (Some Dynamic)] in
  let subscriptions :=
    app subscriptions
      [DebugConfigurationProviderRegistration "R-Debugger" InitialProvider
         (Some Initial)] in
  let factory := DebugAdapterDescriptorFactory.new rHelpPanel in
  let subscriptions :=
    app subscriptions
      [DebugAdapterDescriptorFactoryRegistration "R-Debugger" factory] in
  let tracksTerminals := toBoolean (trackTerminalsSetting context) in
  let subscriptions :=
    app subscriptions
      [CommandRegistration "r.debugger.updateRPackage";
       CommandRegistration "r.debugger.showDataViewer"] in
  {| subscriptions := subscriptions;
     globalStateUpdate := globalStateUpdate;
     tracksTerminals := tracksTerminals |}.

(* ===================================================================== *)
(** ** Vocabulary of the statements *)
(* ===================================================================== *)

Import DebugAdapterDescriptorFactory.
Import DebugConfigurationResolver.

(** The debug modes that lines 305-319 recognise. *)
Definition recognizedMode (mode : Value) : Prop :=
  mode = Str "function" \/ mode = Str "file" \/ mode = Str "workspace".

Definition isAttachConfiguration (strictConfig : StrictDebugConfiguration)
  : bool :=
  match strictConfig with AttachConfiguration _ => true | _ => false end.


(** The fields that a launch resolution forces or defaults. *)
Definition forcedLaunchFields : list string :=
  [ "supportsStdoutReading"; "supportsWriteToStdinEvent";
    "supportsShowingPromptRequest"; "overwriteHelp" ].

(** Membership of a literal name in [forcedLaunchFields]. *)
Ltac is_forced :=
  unfold forcedLaunchFields;
  repeat first [apply list_elem_of_here | apply list_elem_of_further].

Ltac not_forced :=
  unfold forcedLaunchFields; rewrite !not_elem_of_cons;
  repeat split; solve [discriminate | apply not_elem_of_nil].


(** What a launch resolution makes of a configuration whose required
    fields are filled: the default of line 280 and the capabilities of
    lines 285-290. *)
Definition launchResolved (this : t) (config : Object) : Object :=
  set "overwriteHelp"
    (and (coalesce (get config "overwriteHelp") (Bool true))
         (Bool (supportsHelpViewer this)))
    (set "supportsShowingPromptRequest" (Bool true)
       (set "supportsWriteToStdinEvent" (Bool true)
          (set "supportsStdoutReading" (Bool true)
             (set "allowGlobalDebugging"
                (coalesce (get config "allowGlobalDebugging") (Bool true))
                config)))).

(** The three configurations that an empty launch resolves to: the literal
    of lines 247-275 with the defaults and capabilities of lines 279-290
    and the required fields of lines 305-319. *)
Definition packageLaunch (this : t) (host : Host)
  (folder : option WorkspaceFolder) : Object :=
  object
    [ ("type", Str "R-Debugger");
      ("name", Str "Debug R-Package");
      ("request", Str "launch");
      ("debugMode", Str "workspace");
      ("workingDirectory", Str (wd host folder));
      ("loadPackages", Arr [Str "."]);
      ("includePackageScopes", Bool true);
      ("allowGlobalDebugging", Bool true);
      ("supportsStdoutReading", Bool true);
      ("supportsWriteToStdinEvent", Bool true);
      ("supportsShowingPromptRequest", Bool true);
      ("overwriteHelp", Bool (supportsHelpViewer this)) ].

Definition fileLaunch (this : t) (host : Host)
  (folder : option WorkspaceFolder) : Object :=
  object
    [ ("type", Str "R-Debugger");
      ("name", Str "Launch R Debugger");
      ("request", Str "launch");
      ("debugMode", Str "file");
      ("file", Str "${file}");
      ("workingDirectory", Str (wd host folder));
      ("allowGlobalDebugging", Bool true);
      ("supportsStdoutReading", Bool true);
      ("supportsWriteToStdinEvent", Bool true);
      ("supportsShowingPromptRequest", Bool true);
      ("overwriteHelp", Bool (supportsHelpViewer this)) ].

Definition workspaceLaunch (this : t) (host : Host)
  (folder : option WorkspaceFolder) : Object :=
  object
    [ ("type", Str "R-Debugger");
      ("name", Str "Launch R Debugger");
      ("request", Str "launch");
      ("debugMode", Str "workspace");
      ("workingDirectory", Str (wd host folder));
      ("allowGlobalDebugging", Bool true);
      ("supportsStdoutReading", Bool true);
      ("supportsWriteToStdinEvent", Bool true);
      ("supportsShowingPromptRequest", Bool true);
      ("overwriteHelp", Bool (supportsHelpViewer this)) ].


(** The fields that lines 279-280 default for every request. *)
Definition defaultedFields : list string :=
  [ "debugMode"; "allowGlobalDebugging" ].

(** The fields that lines 293-297 assign for an attach request. *)
Definition attachFields : list string :=
  [ "customPort"; "customHost"; "useCustomSocket";
    "supportsWriteToStdinEvent"; "overwriteLoadAll" ].

(** The fields that lines 305-319 backfill, by debug mode. *)
Definition requiredFields : list string :=
  [ "workingDirectory"; "file"; "mainFunction" ].

(** The fields that lines 283-298 assign, for either request. *)
Definition capabilityFields : list string :=
  (forcedLaunchFields ++ attachFields)%list.

(** The state lines 285-290 leave behind: the three capabilities are
    [true], and [overwriteHelp] is set and is truthy only as [true] with a
    help viewer. *)
Definition launchCapabilitiesSet (this : t) (config : Object) : Prop :=
  get config "supportsStdoutReading" = Bool true
  /\ get config "supportsWriteToStdinEvent" = Bool true
  /\ get config "supportsShowingPromptRequest" = Bool true
  /\ nullish (get config "overwriteHelp") = false
  /\ (toBoolean (get config "overwriteHelp") = true ->
      get config "overwriteHelp" = Bool true
      /\ supportsHelpViewer this = true).

(** The state lines 293-297 leave behind. *)
Definition attachFieldsSet (this : t) (config : Object) : Prop :=
  nullish (get config "customPort") = false
  /\ (toBoolean (get config "customHost") = true
      \/ get config "customHost" = Str (customHost this))
  /\ nullish (get config "useCustomSocket") = false
  /\ nullish (get config "supportsWriteToStdinEvent") = false
  /\ get config "overwriteLoadAll" = Bool false.

(** What a configuration cast to a launch type satisfies: it is not an
    attach request, its mode is the one of the type, the fields required by
    that mode are truthy, and a launch request carries its capabilities. *)
Definition launchFieldsSet (this : t) (mode : string)
  (required : list string) (config : Object) : Prop :=
  get config "request" <> Str "attach"
  /\ get config "debugMode" = Str mode
  /\ Forall (fun k => toBoolean (get config k) = true) required
  /\ (get config "request" = Str "launch" ->
      launchCapabilitiesSet this config).

(** The invariant of a strict configuration, by tag. *)
Definition StrictInvariant (this : t)
  (strictConfig : StrictDebugConfiguration) : Prop :=
  let config := configOf strictConfig in
  launchedWithoutConfig config = false
  /\ toBoolean (get config "debugMode") = true
  /\ nullish (get config "allowGlobalDebugging") = false
  /\ match strictConfig with
     | AttachConfiguration _ =>
         get config "request" = Str "attach" /\ attachFieldsSet this config
     | FunctionDebugConfiguration _ =>
         launchFieldsSet this "function"
           [ "workingDirectory"; "file"; "mainFunction" ] config
     | FileDebugConfiguration _ =>
         launchFieldsSet this "file" [ "workingDirectory"; "file" ] config
     | WorkspaceDebugConfiguration _ =>
         launchFieldsSet this "workspace" [ "workingDirectory" ] config
     end.

(** The assignments of lines 307-309, 313-314 and 318. *)
Definition fillWorkingDirectory (wd : string) (config : Object) : Object :=
  set "workingDirectory" (or (get config "workingDirectory") (Str wd)) config.

Definition fillFile (config : Object) : Object :=
  set "file" (or (get config "file") (Str "${file}")) config.

Definition fillMainFunction (config : Object) : Object :=
  set "mainFunction" (or (get config "mainFunction") (Str "main")) config.

(** Every field that resolution may assign. *)
Definition touchedFields : list string :=
  (defaultedFields ++ capabilityFields ++ requiredFields)%list.

(** The fields that [createDebugAdapterDescriptor] reads. *)
Definition transportFields : list string :=
  [ "request"; "commandLineArgs"; "port"; "host" ].

(** The values that [...v] can spread. *)
Definition iterable (v : Value) : bool :=
  match v with Arr _ | Str _ => true | _ => false end.

(** The tag of a strict configuration, by name. *)
Definition modeOf (strictConfig : StrictDebugConfiguration) : string :=
  match strictConfig with
  | FunctionDebugConfiguration _ => "function"
  | FileDebugConfiguration _ => "file"
  | WorkspaceDebugConfiguration _ => "workspace"
  | AttachConfiguration _ => "attach"
  end.

(** A value that resolution keeps where it is. *)
Definition kept (k : string) (v : Value) : Prop :=
  (toBoolean v = true /\ (k ∉ forcedLaunchFields)
   /\ k <> "overwriteLoadAll")
  \/ (k = "allowGlobalDebugging" /\ nullish v = false).

(** A value of the declared type [string] that is not empty. *)
Definition nonEmptyString (v : Value) : Prop :=
  exists s, v = Str s /\ s <> EmptyString.

(** A value that fits an optional [string] field: unset or a string. *)
Definition stringOrUnset (v : Value) : Prop :=
  nullish v = true \/ exists s, v = Str s.

(** The template of the dynamic provider that corresponds to the
    configuration synthesised for a launch without configuration. *)
Definition synthesizedTemplate (host : Host)
  (folder : option WorkspaceFolder) : StrictDebugConfiguration :=
  if hasDescription host folder then
    DynamicDebugConfigurationProvider.packageTemplate (wd host folder)
  else if docValid host then
    DynamicDebugConfigurationProvider.fileTemplate (wd host folder)
  else
    DynamicDebugConfigurationProvider.workspaceTemplate (wd host folder).



(** The value of the declared type [boolean] that an optional field holds:
    unset, or a boolean. *)
Definition booleanOrUnset (v : Value) : Prop :=
  nullish v = true \/ exists b, v = Bool b.

(* ===================================================================== *)
(** ** Concrete hosts and configurations used as test inputs *)
(* ===================================================================== *)

Module Samples.

Definition join (dir file : string) : string := dir ++ "/" ++ file.

(** No editor open, no file on disk. *)
Definition emptyHost : Host :=
  {| activeTextEditor := None;
     existsSync := fun _ => false;
     path_join := join |}.

(** An R script is open in the editor; no [DESCRIPTION] anywhere. *)
Definition scriptHost : Host :=
  {| activeTextEditor :=
       Some {| document :=
                 {| doc_uri := {| scheme := "file";
                                  fsPath := "/home/u/proj/run.R" |} |} |};
     existsSync := fun _ => false;
     path_join := join |}.

(** The workspace folder holds an R package. *)
Definition packageHost : Host :=
  {| activeTextEditor := None;
     existsSync := fun p => String.eqb p "/home/u/pkg/DESCRIPTION";
     path_join := join |}.

Definition packageFolder : WorkspaceFolder :=
  {| folder_uri := {| scheme := "file"; fsPath := "/home/u/pkg" |} |}.

Definition resolver : DebugConfigurationResolver.t :=
  DebugConfigurationResolver.new 40123 None None.

Definition resolverWithHelp : DebugConfigurationResolver.t :=
  DebugConfigurationResolver.new 40123 (Some "localhost") (Some true).

Definition factory : DebugAdapterDescriptorFactory.t :=
  DebugAdapterDescriptorFactory.new None.

Definition bareAttach : Object :=
  object [ ("type", Str "R-Debugger");
           ("request", Str "attach");
           ("name", Str "Attach to R process") ].

Definition attachRemote : Object :=
  object [ ("type", Str "R-Debugger");
           ("request", Str "attach");
           ("name", Str "Attach to R process");
           ("port", Num 9000);
           ("host", Str "10.0.0.5") ].

Definition attachFalsy : Object :=
  object [ ("type", Str "R-Debugger");
           ("request", Str "attach");
           ("name", Str "Attach to R process");
           ("port", Num 0);
           ("host", Str EmptyString) ].

Definition unknownRequest : Object :=
  object [ ("type", Str "R-Debugger");
           ("request", Str "restart");
           ("name", Str "Restart R") ].


End Samples.

Module LaunchSamples.



Definition optOut : Object :=
  object [ ("type", Str "R-Debugger");
           ("request", Str "launch");
           ("name", Str "Launch");
           ("debugMode", Str "workspace");
           ("workingDirectory", Str "/home/u/proj");
           ("supportsStdoutReading", Bool false);
           ("supportsWriteToStdinEvent", Bool false);
           ("supportsShowingPromptRequest", Bool false);
           ("overwriteHelp", Bool true) ].

Definition numericHelp : Object :=
  object [ ("type", Str "R-Debugger");
           ("request", Str "launch");
           ("name", Str "Launch");
           ("overwriteHelp", Num 0) ].

Definition strictFunction : Object :=
  object [ ("type", Str "R-Debugger");
           ("request", Str "launch");
           ("name", Str "Debug R-Function");
           ("debugMode", Str "function");
           ("workingDirectory", Str "/home/u/proj");
           ("file", Str "/home/u/proj/run.R");
           ("mainFunction", Str "main") ].

End LaunchSamples.


Module AttachSamples.

Definition zeroPortEmptyHost : Object :=
  object [ ("type", Str "R-Debugger");
           ("request", Str "attach");
           ("name", Str "Attach to R process");
           ("debugMode", Str "invalid");
           ("customPort", Num 0);
           ("customHost", Str EmptyString);
           ("useCustomSocket", Bool false);
           ("overwriteLoadAll", Bool true) ].

Definition explicitSocket : Object :=
  object [ ("type", Str "R-Debugger");
           ("request", Str "attach");
           ("name", Str "Attach to R process");
           ("customPort", Num 9000);
           ("customHost", Str "10.0.0.5");
           ("useCustomSocket", Bool false);
           ("supportsWriteToStdinEvent", Bool false);
           ("overwriteLoadAll", Bool true);
           ("splitOverwrittenOutput", Bool true) ].

End AttachSamples.

Module ExtraSamples.

Definition helpPanel : HelpPanel := HelpPanelHandle 1.

Definition context : ExtensionContext :=
  {| ignoreDeprecatedConfig := Bool false;
     checkSettings := Bool true;
     rExtension := Some (Some {| api_helpPanel := Some helpPanel |});
     portPromise := 40123;
     trackTerminalsSetting := Bool false |}.

Definition launchFile : Object :=
  object [ ("type", Str "R-Debugger");
           ("request", Str "launch");
           ("name", Str "Debug R-File");
           ("file", Str "/home/u/proj/run.R");
           ("commandLineArgs", Arr [Str "--vanilla"]);
           ("env", Obj [("R_LIBS", Str "/home/u/R")]) ].

Definition launchBadArgs : Object :=
  object [ ("type", Str "R-Debugger");
           ("request", Str "launch");
           ("name", Str "Launch");
           ("commandLineArgs", Num 3) ].

End ExtraSamples.


(* ===================================================================== *)
(** ** Facts about the JavaScript operators *)
(* ===================================================================== *)

Lemma strictEqStr_true (v : Value) (lit : string) :
  strictEqStr v lit = true <-> v = Str lit.
Proof.
  destruct v; simpl; try (split; [discriminate | intros H; discriminate H]).
  rewrite String.eqb_eq. split; [intros -> | intros [= ->]]; reflexivity.
Qed.

Lemma strictEqStr_false (v : Value) (lit : string) :
  strictEqStr v lit = false <-> v <> Str lit.
Proof.
  rewrite <- strictEqStr_true. destruct (strictEqStr v lit); split;
    congruence.
Qed.

Lemma get_empty (k : string) : get ∅ k = Undefined.
Proof. unfold get. rewrite lookup_empty. reflexivity. Qed.

Lemma lookup_set (k k' : string) (v : Value) (o : Object) :
  set k v o !! k' = if String.eqb k k' then Some v else o !! k'.
Proof.
  unfold set. destruct (String.eqb_spec k k') as [-> | Hne].
  - apply lookup_insert_eq.
  - apply lookup_insert_ne, Hne.
Qed.

Lemma get_set (k k' : string) (v : Value) (o : Object) :
  get (set k v o) k' = if String.eqb k k' then v else get o k'.
Proof. unfold get at 1. rewrite lookup_set. destruct (String.eqb k k'); reflexivity. Qed.

Lemma or_truthy (v w : Value) : toBoolean v = true -> or v w = v.
Proof. unfold or. intros ->. reflexivity. Qed.

Lemma or_falsy (v w : Value) : toBoolean v = false -> or v w = w.
Proof. unfold or. intros ->. reflexivity. Qed.

Lemma nullish_falsy (v : Value) : nullish v = true -> toBoolean v = false.
Proof. destruct v; simpl; congruence. Qed.

Lemma coalesce_nullish (v w : Value) : nullish v = true -> coalesce v w = w.
Proof. unfold coalesce. intros ->. reflexivity. Qed.

Lemma coalesce_set (v w : Value) : nullish v = false -> coalesce v w = v.
Proof. unfold coalesce. intros ->. reflexivity. Qed.

(** Reads through a chain of assignments to literal property names. *)
Ltac read_props :=
  repeat (rewrite ?get_set, ?lookup_set, ?get_empty; cbn [String.eqb Ascii.eqb Bool.eqb]).

(* ===================================================================== *)
(** ** Transport selection *)
(* ===================================================================== *)

Lemma invalid_request_throws
  (this : DebugAdapterDescriptorFactory.t) (config : Object) :
  get config "request" <> Str "launch" ->
  get config "request" <> Str "attach" ->
  createDebugAdapterDescriptor this {| configuration := config |}
  = Throw (Error invalidRequestMessage).
Proof.
  intros Hl%strictEqStr_false Ha%strictEqStr_false.
  unfold createDebugAdapterDescriptor. cbn [configuration].
  rewrite Hl, Ha. reflexivity.
Qed.

(** C7.  For every session whose configuration has a [request] that is
    neither ["launch"] nor ["attach"], [createDebugAdapterDescriptor] throws
    the "Invalid entry" error; it returns no descriptor. *)
Theorem createDebugAdapterDescriptor_invalid_request
  (this : DebugAdapterDescriptorFactory.t) (session : DebugSession) :
  get (configuration session) "request" <> Str "launch" ->
  get (configuration session) "request" <> Str "attach" ->
  createDebugAdapterDescriptor this session
    = Throw (Error invalidRequestMessage)
  /\ returns (createDebugAdapterDescriptor this session) = false.
Proof.
  destruct session as [config]. cbn [configuration]. intros Hl Ha.
  rewrite (invalid_request_throws this config Hl Ha). split; reflexivity.
Qed.

Lemma createDebugAdapterDescriptor_invalid_request_witness :
  createDebugAdapterDescriptor Samples.factory
    {| configuration := Samples.unknownRequest |}
    = Throw (Error invalidRequestMessage)
  /\ returns (createDebugAdapterDescriptor Samples.factory
                {| configuration := Samples.unknownRequest |}) = false.
Proof.
  apply (createDebugAdapterDescriptor_invalid_request Samples.factory
           {| configuration := Samples.unknownRequest |});
    vm_compute; discriminate.
Defined.

(** C8 (as stated) fails for a [port] set to 0 and a [host] set to the
    empty string: [||] replaces both by the defaults, so the set values are
    not the ones the handle is bound to. *)
Lemma createDebugAdapterDescriptor_attach_falsy_replaced :
  Samples.attachFalsy !! "port" = Some (Num 0)
  /\ Samples.attachFalsy !! "host" = Some (Str EmptyString)
  /\ createDebugAdapterDescriptor Samples.factory
       {| configuration := Samples.attachFalsy |}
     = Return (DebugAdapterServer (Num 18721) (Str "localhost"))
  /\ createDebugAdapterDescriptor Samples.factory
       {| configuration := Samples.attachFalsy |}
     <> Return (DebugAdapterServer (Num 0) (Str EmptyString)).
Proof. repeat split; vm_compute; solve [reflexivity | discriminate]. Qed.

(** C8 (amended).  For every session whose configuration has
    [request === 'attach'], [createDebugAdapterDescriptor] returns a
    [DebugAdapterServer].  With [port] and [host] unset (absent,
    [undefined] or [null]) it is bound to 18721 and ["localhost"]; a [port]
    or [host] set to a truthy value is used as it is.  In general the
    handle is bound to [config.port || 18721] and
    [config.host || 'localhost'], so that a [port] of 0 and an empty [host]
    are replaced by the defaults as well. *)
Theorem createDebugAdapterDescriptor_attach
  (this : DebugAdapterDescriptorFactory.t) (session : DebugSession) :
  let config := configuration session in
  get config "request" = Str "attach" ->
  exists port host,
    createDebugAdapterDescriptor this session
      = Return (DebugAdapterServer port host)
    /\ (nullish (get config "port") = true -> port = Num 18721)
    /\ (nullish (get config "host") = true -> host = Str "localhost")
    /\ (toBoolean (get config "port") = true -> port = get config "port")
    /\ (toBoolean (get config "host") = true -> host = get config "host")
    /\ (toBoolean (get config "port") = false -> port = Num 18721)
    /\ (toBoolean (get config "host") = false -> host = Str "localhost")
    /\ port = or (get config "port") (Num 18721)
    /\ host = or (get config "host") (Str "localhost").
Proof.
  intros config Hreq.
  exists (or (get config "port") (Num 18721)),
         (or (get config "host") (Str "localhost")).
  split.
  - unfold createDebugAdapterDescriptor. fold config. rewrite Hreq.
    reflexivity.
  - repeat split; intros H;
      solve [ apply or_falsy, nullish_falsy, H | apply or_truthy, H
            | apply or_falsy, H ].
Qed.

Lemma createDebugAdapterDescriptor_attach_witness :
  createDebugAdapterDescriptor Samples.factory
    {| configuration := Samples.bareAttach |}
    = Return (DebugAdapterServer (Num 18721) (Str "localhost")).
Proof.
  destruct (createDebugAdapterDescriptor_attach Samples.factory
              {| configuration := Samples.bareAttach |})
    as (port & host & Hret & Hport & Hhost & _).
  - vm_compute. reflexivity.
  - rewrite Hret, Hport, Hhost by (vm_compute; reflexivity). reflexivity.
Defined.

Example createDebugAdapterDescriptor_attach_remote :
  createDebugAdapterDescriptor Samples.factory
    {| configuration := Samples.attachRemote |}
    = Return (DebugAdapterServer (Num 9000) (Str "10.0.0.5")).
Proof. vm_compute. reflexivity. Qed.

(** A launch request is served in process, with the command line arguments
    of the configuration, none when the property is missing. *)
Lemma createDebugAdapterDescriptor_launch
  (this : DebugAdapterDescriptorFactory.t) (session : DebugSession) :
  get (configuration session) "request" = Str "launch" ->
  configuration session !! "commandLineArgs" = None ->
  createDebugAdapterDescriptor this session
  = Return (DebugAdapterInlineImplementation
              {| adapter_helpPanel := helpPanel this;
                 adapter_commandLineArgs := [] |}).
Proof.
  intros Hreq Hargs. unfold createDebugAdapterDescriptor, hasProperty.
  rewrite Hreq, Hargs. reflexivity.
Qed.

Example createDebugAdapterDescriptor_launch_args :
  createDebugAdapterDescriptor Samples.factory
    {| configuration :=
         object [ ("request", Str "launch");
                  ("commandLineArgs", Arr [Str "--vanilla"; Str "-q"]) ] |}
  = Return (DebugAdapterInlineImplementation
              {| adapter_helpPanel := None;
                 adapter_commandLineArgs := [Str "--vanilla"; Str "-q"] |}).
Proof. vm_compute. reflexivity. Qed.

(* ===================================================================== *)
(** ** The dynamic configuration provider *)
(* ===================================================================== *)

(** C9.  With no file-backed document open and no package descriptor, the
    dynamic provider returns exactly two configurations: the workspace
    launch, whose working directory is [${workspaceFolder}] when a folder
    is given and [.] otherwise, and then the attach configuration. *)
Theorem provideDebugConfigurations_minimal
  (host : Host) (folder : option WorkspaceFolder) :
  docValid host = false ->
  hasDescription host folder = false ->
  DynamicDebugConfigurationProvider.provideDebugConfigurations host folder
  = [ WorkspaceDebugConfiguration (object
        [ ("type", Str "R-Debugger");
          ("request", Str "launch");
          ("name", Str "Launch R-Workspace");
          ("debugMode", Str "workspace");
          ("workingDirectory",
             Str (match folder with
                  | Some _ => "${workspaceFolder}"
                  | None => "."
                  end));
          ("allowGlobalDebugging", Bool true) ]);
      AttachConfiguration (object
        [ ("type", Str "R-Debugger");
          ("request", Str "attach");
          ("name", Str "Attach to R process");
          ("splitOverwrittenOutput", Bool true) ]) ].
Proof.
  intros Hdoc Hdesc.
  unfold DynamicDebugConfigurationProvider.provideDebugConfigurations.
  rewrite Hdoc, Hdesc. unfold wd. rewrite Hdoc.
  destruct folder; reflexivity.
Qed.

Lemma provideDebugConfigurations_minimal_witness :
  length (DynamicDebugConfigurationProvider.provideDebugConfigurations
            Samples.emptyHost None) = 2%nat
  /\ configOf <$> DynamicDebugConfigurationProvider.provideDebugConfigurations
                    Samples.emptyHost None
     = [ object [ ("type", Str "R-Debugger");
                  ("request", Str "launch");
                  ("name", Str "Launch R-Workspace");
                  ("debugMode", Str "workspace");
                  ("workingDirectory", Str ".");
                  ("allowGlobalDebugging", Bool true) ];
         object [ ("type", Str "R-Debugger");
                  ("request", Str "attach");
                  ("name", Str "Attach to R process");
                  ("splitOverwrittenOutput", Bool true) ] ].
Proof.
  rewrite (provideDebugConfigurations_minimal Samples.emptyHost None
             eq_refl eq_refl).
  split; reflexivity.
Defined.

(** The other templates appear exactly when their signal is present. *)
Lemma provideDebugConfigurations_length
  (host : Host) (folder : option WorkspaceFolder) :
  length (DynamicDebugConfigurationProvider.provideDebugConfigurations
            host folder)
  = (2 + (if docValid host then 2 else 0)
       + (if hasDescription host folder then 1 else 0))%nat.
Proof.
  unfold DynamicDebugConfigurationProvider.provideDebugConfigurations.
  destruct (docValid host), (hasDescription host folder); reflexivity.
Qed.

(* ===================================================================== *)
(** ** The configuration resolver *)
(* ===================================================================== *)

(** *** The stages of [resolveDebugConfiguration] *)

Lemma launchedWithoutConfig_true (config : Object) :
  launchedWithoutConfig config = true
  <-> toBoolean (get config "type") = false
      /\ toBoolean (get config "request") = false
      /\ toBoolean (get config "name") = false.
Proof.
  unfold launchedWithoutConfig, not.
  rewrite !andb_true_iff, !negb_true_iff. tauto.
Qed.

Lemma launchedWithoutConfig_request (config : Object) :
  toBoolean (get config "request") = true ->
  launchedWithoutConfig config = false.
Proof.
  intros H. unfold launchedWithoutConfig, not. rewrite H.
  destruct (toBoolean (get config "type")); reflexivity.
Qed.

Lemma resolve_given_config (this : t) (host : Host)
  (folder : option WorkspaceFolder) (config : Object) :
  launchedWithoutConfig config = false ->
  resolveDebugConfiguration this host folder config
  = Return (matchDebugMode (wd host folder)
              (fillCapabilities this (fillDefaults (docValid host) config))).
Proof. intros H. unfold resolveDebugConfiguration. rewrite H. reflexivity. Qed.

Lemma fillDefaults_debugMode (docValid : bool) (config : Object) :
  get (fillDefaults docValid config) "debugMode"
  = or (get config "debugMode")
       (Str (if docValid then "file" else "workspace")).
Proof. unfold fillDefaults. read_props. reflexivity. Qed.

Lemma fillDefaults_request (docValid : bool) (config : Object) :
  get (fillDefaults docValid config) "request" = get config "request".
Proof. unfold fillDefaults. read_props. reflexivity. Qed.

Lemma fillCapabilities_request (this : t) (config : Object) :
  get (fillCapabilities this config) "request" = get config "request".
Proof.
  unfold fillCapabilities.
  destruct (strictEqStr (get config "request") "launch");
    [| destruct (strictEqStr (get config "request") "attach")];
    read_props; reflexivity.
Qed.

Lemma fillCapabilities_debugMode (this : t) (config : Object) :
  get (fillCapabilities this config) "debugMode" = get config "debugMode".
Proof.
  unfold fillCapabilities.
  destruct (strictEqStr (get config "request") "launch");
    [| destruct (strictEqStr (get config "request") "attach")];
    read_props; reflexivity.
Qed.

(** The debug mode after the default of line 279 has been applied. *)
Lemma or_mode_cases (v : Value) (docValid : bool) :
  let mode := or v (Str (if docValid then "file" else "workspace")) in
  (toBoolean v = true /\ mode = v)
  \/ (toBoolean v = false
      /\ mode = Str (if docValid then "file" else "workspace")).
Proof.
  unfold or. destruct (toBoolean v); [left | right]; split; reflexivity.
Qed.

(** *** Launching without a configuration *)

Lemma resolve_synthesized (this : t) (host : Host)
  (folder : option WorkspaceFolder) (config : Object) :
  launchedWithoutConfig config = true ->
  resolveDebugConfiguration this host folder config
  = Return (Some (
      if hasDescription host folder then
        WorkspaceDebugConfiguration (packageLaunch this host folder)
      else if docValid host then
        FileDebugConfiguration (fileLaunch this host folder)
      else
        WorkspaceDebugConfiguration (workspaceLaunch this host folder))).
Proof.
  intros Hempty.
  unfold resolveDebugConfiguration. rewrite Hempty.
  unfold packageLaunch, fileLaunch, workspaceLaunch, wd.
  destruct this as [port hostname [|]], (docValid host),
    (hasDescription host folder), folder;
    vm_compute; reflexivity.
Qed.

(** C4.  When [type], [request] and [name] are all missing (falsy), the
    resolver synthesises the configuration from the environment: the
    package launch (tagged workspace, with [includePackageScopes] and
    [loadPackages = ["."]]) when the folder has a [DESCRIPTION]; else the
    file launch of [${file}] when a file-backed document is open; else the
    plain workspace launch.  The result is given in full, with the defaults
    and capabilities that the later lines add. *)
Theorem resolve_without_config (this : t) (host : Host)
  (folder : option WorkspaceFolder) (config : Object) :
  toBoolean (get config "type") = false ->
  toBoolean (get config "request") = false ->
  toBoolean (get config "name") = false ->
  resolveDebugConfiguration this host folder config
  = Return (Some (
      if hasDescription host folder then
        WorkspaceDebugConfiguration (packageLaunch this host folder)
      else if docValid host then
        FileDebugConfiguration (fileLaunch this host folder)
      else
        WorkspaceDebugConfiguration (workspaceLaunch this host folder))).
Proof.
  intros Htype Hrequest Hname.
  apply resolve_synthesized, launchedWithoutConfig_true. auto.
Qed.

Lemma resolve_without_config_witness :
  resolveDebugConfiguration Samples.resolver Samples.scriptHost None ∅
  = Return (Some (FileDebugConfiguration (object
      [ ("type", Str "R-Debugger");
        ("name", Str "Launch R Debugger");
        ("request", Str "launch");
        ("debugMode", Str "file");
        ("file", Str "${file}");
        ("workingDirectory", Str "${fileDirname}");
        ("allowGlobalDebugging", Bool true);
        ("supportsStdoutReading", Bool true);
        ("supportsWriteToStdinEvent", Bool true);
        ("supportsShowingPromptRequest", Bool true);
        ("overwriteHelp", Bool false) ]))).
Proof.
  rewrite (resolve_without_config Samples.resolver Samples.scriptHost None ∅)
    by (vm_compute; reflexivity).
  vm_compute. reflexivity.
Defined.

(** An empty configuration in a package folder gives the package launch. *)
Example resolve_without_config_package :
  exists config,
    resolveDebugConfiguration Samples.resolverWithHelp Samples.packageHost
      (Some Samples.packageFolder) ∅
    = Return (Some (WorkspaceDebugConfiguration config))
    /\ get config "includePackageScopes" = Bool true
    /\ get config "loadPackages" = Arr [Str "."]
    /\ get config "workingDirectory" = Str "${workspaceFolder}"
    /\ get config "overwriteHelp" = Bool true.
Proof. eexists. split; [vm_compute; reflexivity |]. vm_compute. tauto. Qed.

(** *** Required fields and the cast *)

Lemma recognizedMode_truthy (mode : Value) :
  recognizedMode mode -> toBoolean mode = true.
Proof. intros [-> | [-> | ->]]; reflexivity. Qed.

Lemma recognizedMode_default (docValid : bool) :
  recognizedMode (Str (if docValid then "file" else "workspace")).
Proof. destruct docValid; unfold recognizedMode; auto. Qed.

(** The mode that line 301 reads is recognised exactly when the caller's
    [debugMode] is falsy (and so replaced by the default) or recognised. *)
Lemma recognizedMode_or (mode : Value) (docValid : bool) :
  recognizedMode (or mode (Str (if docValid then "file" else "workspace")))
  <-> toBoolean mode = false \/ recognizedMode mode.
Proof.
  destruct (or_mode_cases mode docValid) as [[Ht ->] | [Hf ->]].
  - split; [auto | intros [Hf | H]; [congruence | exact H]].
  - split; [auto | intros _; apply recognizedMode_default].
Qed.

Lemma matchDebugMode_attach (wd : string) (config : Object) :
  get config "request" = Str "attach" ->
  matchDebugMode wd config = Some (AttachConfiguration config).
Proof.
  intros H%strictEqStr_true. unfold matchDebugMode. rewrite H. reflexivity.
Qed.

(** Without [request === 'attach'] the result is [null] exactly for an
    unrecognised mode, and never carries the attach tag. *)
Lemma matchDebugMode_not_attach (wd : string) (config : Object) :
  get config "request" <> Str "attach" ->
  (matchDebugMode wd config = None
   <-> ~ recognizedMode (get config "debugMode"))
  /\ (forall strictConfig,
        matchDebugMode wd config = Some strictConfig ->
        isAttachConfiguration strictConfig = false).
Proof.
  intros Hreq%strictEqStr_false. unfold matchDebugMode, recognizedMode.
  rewrite Hreq.
  destruct (strictEqStr (get config "debugMode") "function") eqn:Hfun;
    [| destruct (strictEqStr (get config "debugMode") "file") eqn:Hfile;
       [| destruct (strictEqStr (get config "debugMode") "workspace")
            eqn:Hws ]].
  - apply strictEqStr_true in Hfun. split.
    + split; [discriminate | tauto].
    + intros sc [= <-]. reflexivity.
  - apply strictEqStr_true in Hfile. split.
    + split; [discriminate | tauto].
    + intros sc [= <-]. reflexivity.
  - apply strictEqStr_true in Hws. split.
    + split; [discriminate | tauto].
    + intros sc [= <-]. reflexivity.
  - apply strictEqStr_false in Hfun, Hfile, Hws. split.
    + split; [tauto | reflexivity].
    + discriminate.
Qed.

(** The cast only touches the required fields of the mode. *)
Lemma matchDebugMode_get (wd : string) (config : Object)
  (strictConfig : StrictDebugConfiguration) (k : string) :
  matchDebugMode wd config = Some strictConfig ->
  k <> "workingDirectory" -> k <> "file" -> k <> "mainFunction" ->
  configOf strictConfig !! k = config !! k.
Proof.
  intros Hmatch Hwd%String.eqb_neq Hfile%String.eqb_neq Hmain%String.eqb_neq.
  rewrite String.eqb_sym in Hwd, Hfile, Hmain.
  unfold matchDebugMode in Hmatch.
  repeat match type of Hmatch with
         | (if ?b then _ else _) = _ => destruct b
         end;
    inversion Hmatch; subst strictConfig; cbn [configOf];
    rewrite ?lookup_set, ?Hwd, ?Hfile, ?Hmain; reflexivity.
Qed.

Lemma get_lookup (o o' : Object) (k : string) :
  o !! k = o' !! k -> get o k = get o' k.
Proof. unfold get. intros ->. reflexivity. Qed.

Lemma resolve_launch (this : t) (host : Host)
  (folder : option WorkspaceFolder) (config : Object) :
  get config "request" = Str "launch" ->
  resolveDebugConfiguration this host folder config
  = Return (matchDebugMode (wd host folder)
              (fillCapabilities this (fillDefaults (docValid host) config))).
Proof.
  intros H. apply resolve_given_config, launchedWithoutConfig_request.
  rewrite H. reflexivity.
Qed.

(** What lines 285-290 leave in the configuration. *)
Lemma fillCapabilities_launch (this : t) (config : Object) :
  get config "request" = Str "launch" ->
  fillCapabilities this config
  = set "overwriteHelp"
      (and (coalesce (get config "overwriteHelp") (Bool true))
           (Bool (supportsHelpViewer this)))
      (set "overwriteHelp"
         (coalesce (get config "overwriteHelp") (Bool true))
         (set "supportsShowingPromptRequest" (Bool true)
            (set "supportsWriteToStdinEvent" (Bool true)
               (set "supportsStdoutReading" (Bool true) config)))).
Proof.
  intros H%strictEqStr_true. unfold fillCapabilities. rewrite H.
  read_props. reflexivity.
Qed.

Lemma fillDefaults_get (docValid : bool) (config : Object) (k : string) :
  k <> "debugMode" -> k <> "allowGlobalDebugging" ->
  fillDefaults docValid config !! k = config !! k.
Proof.
  intros Hmode%String.eqb_neq Hglobal%String.eqb_neq.
  rewrite String.eqb_sym in Hmode, Hglobal.
  unfold fillDefaults. rewrite !lookup_set, Hmode, Hglobal. reflexivity.
Qed.

Lemma toBoolean_and (v : Value) (b : bool) :
  toBoolean (and v (Bool b)) = toBoolean v && b.
Proof. unfold and. destruct (toBoolean v) eqn:H; [reflexivity | exact H]. Qed.

(** *** Launch requests *)

Lemma launch_stage_request (this : t) (docValid : bool) (config : Object) :
  get (fillCapabilities this (fillDefaults docValid config)) "request"
  = get config "request".
Proof. rewrite fillCapabilities_request. apply fillDefaults_request. Qed.

Lemma launch_stage_debugMode (this : t) (docValid : bool) (config : Object) :
  get (fillCapabilities this (fillDefaults docValid config)) "debugMode"
  = or (get config "debugMode")
       (Str (if docValid then "file" else "workspace")).
Proof. rewrite fillCapabilities_debugMode. apply fillDefaults_debugMode. Qed.

(** Under [request === 'launch'] the result is [null] exactly when the
    caller's [debugMode] is truthy and not a recognised mode. *)
Lemma resolve_launch_null (this : t) (host : Host)
  (folder : option WorkspaceFolder) (config : Object) :
  get config "request" = Str "launch" ->
  resolveDebugConfiguration this host folder config = Return None
  <-> toBoolean (get config "debugMode") = true
      /\ ~ recognizedMode (get config "debugMode").
Proof.
  intros Hreq. rewrite (resolve_launch _ _ _ _ Hreq).
  destruct (matchDebugMode_not_attach (wd host folder)
              (fillCapabilities this (fillDefaults (docValid host) config)))
    as [Hnone _].
  { rewrite launch_stage_request, Hreq. discriminate. }
  rewrite launch_stage_debugMode, recognizedMode_or in Hnone.
  split.
  - intros [= H]. apply Hnone in H.
    destruct (toBoolean (get config "debugMode")); tauto.
  - intros [Ht Hn]. f_equal. apply Hnone. intros [Hf | Hr];
      [congruence | contradiction].
Qed.




(** Outside the declared type of [overwriteHelp]: a falsy value that is not
    a boolean is kept by [&&], so [0] stays [0]. *)
Lemma resolve_launch_overwriteHelp_not_false :
  supportsHelpViewer Samples.resolver = false
  /\ get LaunchSamples.numericHelp "request" = Str "launch"
  /\ exists resolved,
       resolveDebugConfiguration Samples.resolver Samples.emptyHost None
         LaunchSamples.numericHelp
       = Return (Some (WorkspaceDebugConfiguration resolved))
       /\ get resolved "overwriteHelp" = Num 0
       /\ get resolved "overwriteHelp" <> Bool false.
Proof.
  split; [reflexivity |]. split; [vm_compute; reflexivity |].
  eexists. split; [vm_compute; reflexivity |].
  split; vm_compute; [reflexivity | discriminate].
Qed.

(** C3.  For every raw configuration with [request = "launch"] the resolver
    returns, with a configuration whenever [debugMode] is falsy or
    recognised, and every configuration it returns has the three capability
    flags equal to [true] whatever the caller supplied.  Its [overwriteHelp]
    is the caller's value, [true] when unset, AND the availability of the
    help panel: for a caller's value of the declared type (unset or a
    boolean [b]) it is the boolean [b && supportsHelpViewer], with [true]
    for [b] when unset, so it is [false] whenever the resolver was built
    with [supportsHelpViewer = false].  For any caller's value it is
    [supportsHelpViewer] when that value is unset or truthy and the value
    itself otherwise, hence truthy only with a help viewer. *)
Theorem resolve_launch_capabilities (this : t) (host : Host)
  (folder : option WorkspaceFolder) (config : Object) :
  get config "request" = Str "launch" ->
  exists result,
    resolveDebugConfiguration this host folder config = Return result
    /\ (toBoolean (get config "debugMode") = false
        \/ recognizedMode (get config "debugMode") -> result <> None)
    /\ forall strictConfig,
         result = Some strictConfig ->
         let resolved := configOf strictConfig in
         let caller := get config "overwriteHelp" in
         get resolved "supportsStdoutReading" = Bool true
         /\ get resolved "supportsWriteToStdinEvent" = Bool true
         /\ get resolved "supportsShowingPromptRequest" = Bool true
         /\ (nullish caller = true ->
             get resolved "overwriteHelp"
             = Bool (true && supportsHelpViewer this))
         /\ (forall b : bool,
               caller = Bool b ->
               get resolved "overwriteHelp"
               = Bool (b && supportsHelpViewer this))
         /\ (booleanOrUnset caller ->
             supportsHelpViewer this = false ->
             get resolved "overwriteHelp" = Bool false)
         /\ get resolved "overwriteHelp"
            = (if nullish caller then Bool (supportsHelpViewer this)
               else if toBoolean caller then Bool (supportsHelpViewer this)
               else caller)
         /\ toBoolean (get resolved "overwriteHelp")
            = (if nullish caller then true else toBoolean caller)
              && supportsHelpViewer this.
Proof.
  intros Hreq.
  exists (matchDebugMode (wd host folder)
            (fillCapabilities this (fillDefaults (docValid host) config))).
  split; [apply resolve_launch, Hreq |]. split.
  - intros Hmode Hnone.
    assert (Hnull : resolveDebugConfiguration this host folder config
                    = Return None)
      by (rewrite (resolve_launch _ _ _ _ Hreq), Hnone; reflexivity).
    apply resolve_launch_null in Hnull; [| exact Hreq].
    destruct Hnull as [Ht Hn], Hmode as [Hf | Hr]; [congruence | tauto].
  - intros strictConfig Hmatch resolved caller.
    assert (Hstage : forall k,
               k <> "workingDirectory" -> k <> "file" ->
               k <> "mainFunction" ->
               get resolved k
               = get (fillCapabilities this
                        (fillDefaults (docValid host) config)) k).
    { intros k H1 H2 H3. apply get_lookup.
      apply (matchDebugMode_get _ _ _ _ Hmatch); assumption. }
    assert (Hhelp : get resolved "overwriteHelp"
                    = and (coalesce caller (Bool true))
                          (Bool (supportsHelpViewer this))).
    { rewrite Hstage by discriminate.
      rewrite fillCapabilities_launch
        by (rewrite fillDefaults_request; exact Hreq).
      read_props. unfold caller. f_equal. f_equal. apply get_lookup.
      apply fillDefaults_get; discriminate. }
    split; [| split; [| split]].
    1-3: rewrite Hstage by discriminate;
         rewrite fillCapabilities_launch
           by (rewrite fillDefaults_request; exact Hreq);
         read_props; reflexivity.
    rewrite Hhelp. clear Hhelp Hstage. unfold booleanOrUnset.
    generalize caller. clear. intros caller.
    split; [| split; [| split; [| split]]].
    + destruct caller; try discriminate; reflexivity.
    + intros b ->. destruct b; reflexivity.
    + intros [Hunset | [b ->]] ->.
      * destruct caller; try discriminate Hunset; reflexivity.
      * destruct b; reflexivity.
    + unfold and, coalesce. destruct (nullish caller); [reflexivity |].
      reflexivity.
    + unfold and, coalesce. destruct (nullish caller); [reflexivity |].
      destruct (toBoolean caller) eqn:Ht; [reflexivity | exact Ht].
Qed.

Lemma resolve_launch_capabilities_witness :
  get LaunchSamples.optOut "request" = Str "launch"
  /\ exists result,
       resolveDebugConfiguration Samples.resolver Samples.emptyHost None
         LaunchSamples.optOut = Return result
       /\ result <> None
       /\ forall strictConfig,
            result = Some strictConfig ->
            get (configOf strictConfig) "supportsStdoutReading" = Bool true
            /\ get (configOf strictConfig) "supportsWriteToStdinEvent"
               = Bool true
            /\ get (configOf strictConfig) "supportsShowingPromptRequest"
               = Bool true
            /\ get (configOf strictConfig) "overwriteHelp" = Bool false.
Proof.
  assert (Hreq : get LaunchSamples.optOut "request" = Str "launch")
    by (vm_compute; reflexivity).
  split; [exact Hreq |].
  destruct (resolve_launch_capabilities Samples.resolver Samples.emptyHost
              None LaunchSamples.optOut Hreq)
    as (result & Hret & Hsome & Hflags).
  exists result. split; [exact Hret |]. split.
  - apply Hsome. right. right. right. vm_compute. reflexivity.
  - intros strictConfig Hresult.
    destruct (Hflags strictConfig Hresult)
      as (H1 & H2 & H3 & _ & H4 & _).
    refine (conj H1 (conj H2 (conj H3 (H4 true _)))).
    vm_compute. reflexivity.
Defined.

(** *** Resolving a configuration that is already strict *)

Lemma lookup_get_truthy (o : Object) (k : string) :
  toBoolean (get o k) = true -> o !! k = Some (get o k).
Proof. unfold get. destruct (o !! k); [reflexivity | discriminate]. Qed.

Lemma lookup_get_set (o : Object) (k : string) :
  nullish (get o k) = false -> o !! k = Some (get o k).
Proof. unfold get. destruct (o !! k); [reflexivity | discriminate]. Qed.

Lemma set_same (o : Object) (k : string) (v : Value) :
  o !! k = Some v -> set k v o = o.
Proof. apply insert_id. Qed.

Lemma set_set (o : Object) (k : string) (v w : Value) :
  set k w (set k v o) = set k w o.
Proof. apply insert_insert_eq. Qed.

(** [o.k = o.k || w] changes nothing when [o.k] is truthy. *)
Lemma set_or_truthy (o : Object) (k : string) (w : Value) :
  toBoolean (get o k) = true -> set k (or (get o k) w) o = o.
Proof.
  intros H. rewrite or_truthy by exact H.
  apply set_same, lookup_get_truthy, H.
Qed.

Lemma launchResolved_lookup (this : t) (config : Object) (k : string) :
  k ∉ forcedLaunchFields -> k <> "allowGlobalDebugging" ->
  launchResolved this config !! k = config !! k.
Proof.
  intros Hforced Hglobal. unfold launchResolved. rewrite !lookup_set.
  repeat match goal with
         | |- context [String.eqb ?lit k] =>
             destruct (String.eqb_spec lit k) as [<- | _];
             [exfalso;
              solve [apply Hforced; is_forced | apply Hglobal; reflexivity] |]
         end.
  reflexivity.
Qed.

(** A strict function launch is resolved to [launchResolved]: the
    assignments of lines 279 and 307-309 write back the values they read. *)
Lemma resolve_function_launch (this : t) (host : Host)
  (folder : option WorkspaceFolder) (config : Object) :
  get config "request" = Str "launch" ->
  get config "debugMode" = Str "function" ->
  toBoolean (get config "workingDirectory") = true ->
  toBoolean (get config "file") = true ->
  toBoolean (get config "mainFunction") = true ->
  resolveDebugConfiguration this host folder config
  = Return (Some (FunctionDebugConfiguration (launchResolved this config))).
Proof.
  intros Hreq Hmode Hwd Hfile Hmain.
  rewrite (resolve_launch _ _ _ _ Hreq).
  assert (Hstage : fillCapabilities this (fillDefaults (docValid host) config)
                   = launchResolved this config).
  { rewrite fillCapabilities_launch
      by (rewrite fillDefaults_request; exact Hreq).
    rewrite set_set. unfold fillDefaults. read_props.
    rewrite (set_or_truthy config "debugMode")
      by (rewrite Hmode; reflexivity).
    reflexivity. }
  assert (Hget : forall k, k ∉ forcedLaunchFields ->
                   k <> "allowGlobalDebugging" ->
                   get (launchResolved this config) k = get config k)
    by (intros k H1 H2; apply get_lookup, launchResolved_lookup; assumption).
  rewrite Hstage. unfold matchDebugMode.
  rewrite (Hget "request"), (Hget "debugMode")
    by solve [not_forced | discriminate].
  rewrite Hreq, Hmode. cbn [strictEqStr String.eqb Ascii.eqb Bool.eqb].
  rewrite (set_or_truthy (launchResolved this config) "workingDirectory")
    by (rewrite Hget by solve [not_forced | discriminate]; exact Hwd).
  rewrite (set_or_truthy (launchResolved this config) "file")
    by (rewrite Hget by solve [not_forced | discriminate]; exact Hfile).
  rewrite (set_or_truthy (launchResolved this config) "mainFunction")
    by (rewrite Hget by solve [not_forced | discriminate]; exact Hmain).
  reflexivity.
Qed.

(** C6 (as stated) fails for a strict function launch that does not set
    [allowGlobalDebugging]: line 280 adds [allowGlobalDebugging = true],
    a field outside the forced ones. *)
Lemma resolve_strict_function_adds_allowGlobalDebugging :
  get LaunchSamples.strictFunction "request" = Str "launch"
  /\ get LaunchSamples.strictFunction "debugMode" = Str "function"
  /\ toBoolean (get LaunchSamples.strictFunction "workingDirectory") = true
  /\ toBoolean (get LaunchSamples.strictFunction "file") = true
  /\ toBoolean (get LaunchSamples.strictFunction "mainFunction") = true
  /\ ("allowGlobalDebugging" ∉ forcedLaunchFields)
  /\ exists resolved,
       resolveDebugConfiguration Samples.resolver Samples.scriptHost None
         LaunchSamples.strictFunction
       = Return (Some (FunctionDebugConfiguration resolved))
       /\ LaunchSamples.strictFunction !! "allowGlobalDebugging" = None
       /\ resolved !! "allowGlobalDebugging" = Some (Bool true).
Proof.
  repeat split; try (vm_compute; reflexivity).
  - not_forced.
  - eexists. repeat split; vm_compute; reflexivity.
Qed.

(** C6 (amended).  Resolving a configuration that is already a strict
    function launch returns a function launch in which no field is altered
    except the forced ones (the three capability flags, set to [true], and
    [overwriteHelp], gated by the help viewer) and [allowGlobalDebugging],
    which is set to [true] when it was unset and kept otherwise. *)
Theorem resolve_strict_function (this : t) (host : Host)
  (folder : option WorkspaceFolder) (config : Object) :
  get config "request" = Str "launch" ->
  get config "debugMode" = Str "function" ->
  toBoolean (get config "workingDirectory") = true ->
  toBoolean (get config "file") = true ->
  toBoolean (get config "mainFunction") = true ->
  exists resolved,
    resolveDebugConfiguration this host folder config
    = Return (Some (FunctionDebugConfiguration resolved))
    /\ (forall k, k ∉ forcedLaunchFields -> k <> "allowGlobalDebugging" ->
        resolved !! k = config !! k)
    /\ resolved !! "allowGlobalDebugging"
       = Some (coalesce (get config "allowGlobalDebugging") (Bool true))
    /\ (nullish (get config "allowGlobalDebugging") = false ->
        resolved !! "allowGlobalDebugging"
        = config !! "allowGlobalDebugging")
    /\ resolved !! "supportsStdoutReading" = Some (Bool true)
    /\ resolved !! "supportsWriteToStdinEvent" = Some (Bool true)
    /\ resolved !! "supportsShowingPromptRequest" = Some (Bool true)
    /\ resolved !! "overwriteHelp"
       = Some (and (coalesce (get config "overwriteHelp") (Bool true))
                   (Bool (supportsHelpViewer this))).
Proof.
  intros Hreq Hmode Hwd Hfile Hmain.
  exists (launchResolved this config).
  split; [apply resolve_function_launch; assumption |].
  split; [intros k; apply launchResolved_lookup |].
  unfold launchResolved. read_props.
  split; [reflexivity |].
  split; [| repeat split].
  intros Hset. rewrite coalesce_set by exact Hset. symmetry.
  apply lookup_get_set, Hset.
Qed.

Lemma resolve_strict_function_witness :
  exists resolved,
    resolveDebugConfiguration Samples.resolver Samples.scriptHost None
      LaunchSamples.strictFunction
    = Return (Some (FunctionDebugConfiguration resolved))
    /\ resolved !! "workingDirectory"
       = LaunchSamples.strictFunction !! "workingDirectory"
    /\ resolved !! "file" = LaunchSamples.strictFunction !! "file"
    /\ resolved !! "mainFunction"
       = LaunchSamples.strictFunction !! "mainFunction"
    /\ resolved !! "allowGlobalDebugging" = Some (Bool true).
Proof.
  destruct (resolve_strict_function Samples.resolver Samples.scriptHost None
              LaunchSamples.strictFunction)
    as (resolved & Hret & Hkeep & Hglobal & _);
    try (vm_compute; reflexivity).
  exists resolved. split; [exact Hret |].
  refine (conj (Hkeep "workingDirectory" _ _)
            (conj (Hkeep "file" _ _)
               (conj (Hkeep "mainFunction" _ _) Hglobal)));
    solve [not_forced | discriminate].
Defined.

(** Resolution is idempotent on such a configuration: resolving the result
    once more returns it unchanged. *)
Lemma and_gate_idem (v : Value) (b : bool) :
  nullish v = false ->
  and (coalesce (and v (Bool b)) (Bool true)) (Bool b) = and v (Bool b).
Proof.
  intros Hv. unfold and at 2 3. destruct (toBoolean v) eqn:Ht.
  - cbn. destruct b; reflexivity.
  - rewrite coalesce_set by exact Hv. unfold and. rewrite Ht. reflexivity.
Qed.

Lemma nullish_coalesce (v w : Value) :
  nullish w = false -> nullish (coalesce v w) = false.
Proof. unfold coalesce. destruct (nullish v) eqn:H; auto. Qed.

Lemma launchResolved_idem (this : t) (config : Object) :
  launchResolved this (launchResolved this config)
  = launchResolved this config.
Proof.
  unfold launchResolved at 1.
  assert (Hhelp : get (launchResolved this config) "overwriteHelp"
                  = and (coalesce (get config "overwriteHelp") (Bool true))
                        (Bool (supportsHelpViewer this)))
    by (unfold launchResolved; read_props; reflexivity).
  assert (Hglobal : get (launchResolved this config) "allowGlobalDebugging"
                    = coalesce (get config "allowGlobalDebugging")
                        (Bool true))
    by (unfold launchResolved; read_props; reflexivity).
  rewrite Hhelp, Hglobal, and_gate_idem
    by (apply nullish_coalesce; reflexivity).
  rewrite (coalesce_set (coalesce _ _))
    by (apply nullish_coalesce; reflexivity).
  apply map_eq. intros k. unfold launchResolved. rewrite !lookup_set.
  repeat match goal with
         | |- context [String.eqb ?lit k] =>
             destruct (String.eqb_spec lit k) as [<- | ?]
         end; reflexivity.
Qed.

Lemma resolve_function_launch_idempotent (this : t) (host : Host)
  (folder : option WorkspaceFolder) (config resolved : Object) :
  get config "request" = Str "launch" ->
  get config "debugMode" = Str "function" ->
  toBoolean (get config "workingDirectory") = true ->
  toBoolean (get config "file") = true ->
  toBoolean (get config "mainFunction") = true ->
  resolveDebugConfiguration this host folder config
  = Return (Some (FunctionDebugConfiguration resolved)) ->
  resolveDebugConfiguration this host folder resolved
  = Return (Some (FunctionDebugConfiguration resolved)).
Proof.
  intros Hreq Hmode Hwd Hfile Hmain.
  rewrite (resolve_function_launch _ _ _ _ Hreq Hmode Hwd Hfile Hmain).
  intros [= <-].
  assert (Hget : forall k, k ∉ forcedLaunchFields ->
                   k <> "allowGlobalDebugging" ->
                   get (launchResolved this config) k = get config k)
    by (intros k H1 H2; apply get_lookup, launchResolved_lookup; assumption).
  rewrite resolve_function_launch, launchResolved_idem;
    rewrite ?Hget by solve [not_forced | discriminate]; auto.
Qed.

(** *** Attach requests *)

Lemma resolve_attach (this : t) (host : Host)
  (folder : option WorkspaceFolder) (config : Object) :
  get config "request" = Str "attach" ->
  resolveDebugConfiguration this host folder config
  = Return (Some (AttachConfiguration
                    (fillCapabilities this
                       (fillDefaults (docValid host) config)))).
Proof.
  intros Hreq. rewrite resolve_given_config
    by (apply launchedWithoutConfig_request; rewrite Hreq; reflexivity).
  rewrite matchDebugMode_attach
    by (rewrite launch_stage_request; exact Hreq).
  reflexivity.
Qed.

(** What lines 293-297 leave in the configuration. *)
Lemma fillCapabilities_attach (this : t) (config : Object) :
  get config "request" = Str "attach" ->
  fillCapabilities this config
  = set "overwriteLoadAll" (Bool false)
      (set "supportsWriteToStdinEvent"
         (coalesce (get config "supportsWriteToStdinEvent") (Bool true))
         (set "useCustomSocket"
            (coalesce (get config "useCustomSocket") (Bool true))
            (set "customHost"
               (or (get config "customHost") (Str (customHost this)))
               (set "customPort"
                  (coalesce (get config "customPort")
                     (Num (customPort this)))
                  config)))).
Proof.
  intros H. unfold fillCapabilities. rewrite H. cbn [strictEqStr String.eqb Ascii.eqb Bool.eqb].
  read_props. reflexivity.
Qed.

(** The socket fields of a resolved attach configuration, in terms of the
    caller's values. *)
Lemma attach_stage_fields (this : t) (docValid : bool) (config : Object) :
  get config "request" = Str "attach" ->
  let resolved := fillCapabilities this (fillDefaults docValid config) in
  get resolved "customPort"
  = coalesce (get config "customPort") (Num (customPort this))
  /\ get resolved "customHost"
     = or (get config "customHost") (Str (customHost this))
  /\ get resolved "useCustomSocket"
     = coalesce (get config "useCustomSocket") (Bool true)
  /\ get resolved "supportsWriteToStdinEvent"
     = coalesce (get config "supportsWriteToStdinEvent") (Bool true)
  /\ get resolved "overwriteLoadAll" = Bool false.
Proof.
  intros Hreq resolved. unfold resolved.
  rewrite fillCapabilities_attach
    by (rewrite fillDefaults_request; exact Hreq).
  read_props.
  rewrite !(get_lookup (fillDefaults docValid config) config)
    by (apply fillDefaults_get; discriminate).
  repeat split.
Qed.

Lemma nullish_or (v w : Value) :
  nullish w = false -> nullish (or v w) = false.
Proof.
  unfold or. destruct (toBoolean v) eqn:H; [| auto].
  intros _. destruct v; try reflexivity; discriminate H.
Qed.

(** C2.  For every raw configuration with [request = "attach"], whatever
    its [debugMode], the resolver returns a non-null configuration with the
    attach tag, in which [customPort] is the caller's value, or the
    resolver's fallback port when that is unset; [customHost] is the
    caller's value, or the resolver's fallback host when that is unset (or
    otherwise falsy); both are always present; [useCustomSocket] is the
    caller's value, [true] when unset, so an explicit [false] is kept;
    [supportsWriteToStdinEvent] is the caller's value, [true] when unset;
    and [overwriteLoadAll] is [false] whatever the caller supplied.  The
    request is still ["attach"], [debugMode] and [allowGlobalDebugging] hold
    their defaults when unset, and every other field passes through as it
    is. *)
Theorem resolve_attach_configuration (this : t) (host : Host)
  (folder : option WorkspaceFolder) (config : Object) :
  get config "request" = Str "attach" ->
  exists resolved,
    resolveDebugConfiguration this host folder config
    = Return (Some (AttachConfiguration resolved))
    /\ get resolved "customPort"
       = (if nullish (get config "customPort")
          then Num (customPort this) else get config "customPort")
    /\ get resolved "customHost"
       = (if toBoolean (get config "customHost")
          then get config "customHost" else Str (customHost this))
    /\ (nullish (get config "customPort") = true ->
        get resolved "customPort" = Num (customPort this))
    /\ (nullish (get config "customHost") = true ->
        get resolved "customHost" = Str (customHost this))
    /\ (forall n, get config "customPort" = Num n ->
        get resolved "customPort" = Num n)
    /\ (forall s, s <> EmptyString -> get config "customHost" = Str s ->
        get resolved "customHost" = Str s)
    /\ nullish (get resolved "customPort") = false
    /\ nullish (get resolved "customHost") = false
    /\ get resolved "useCustomSocket"
       = (if nullish (get config "useCustomSocket")
          then Bool true else get config "useCustomSocket")
    /\ (nullish (get config "useCustomSocket") = true ->
        get resolved "useCustomSocket" = Bool true)
    /\ (get config "useCustomSocket" = Bool false ->
        get resolved "useCustomSocket" = Bool false)
    /\ get resolved "supportsWriteToStdinEvent"
       = (if nullish (get config "supportsWriteToStdinEvent")
          then Bool true else get config "supportsWriteToStdinEvent")
    /\ (nullish (get config "supportsWriteToStdinEvent") = true ->
        get resolved "supportsWriteToStdinEvent" = Bool true)
    /\ get resolved "overwriteLoadAll" = Bool false
    /\ get resolved "request" = Str "attach"
    /\ get resolved "debugMode"
       = (if toBoolean (get config "debugMode")
          then get config "debugMode"
          else Str (if docValid host then "file" else "workspace"))
    /\ get resolved "allowGlobalDebugging"
       = (if nullish (get config "allowGlobalDebugging")
          then Bool true else get config "allowGlobalDebugging")
    /\ forall k,
         (k ∉ defaultedFields) -> (k ∉ attachFields) ->
         resolved !! k = config !! k.
Proof.
  intros Hreq. eexists. split; [apply resolve_attach, Hreq |].
  destruct (attach_stage_fields this (docValid host) config Hreq)
    as (Hport & Hhost & Hsocket & Hstdin & Hload).
  rewrite Hport, Hhost, Hsocket, Hstdin, Hload.
  pose proof (fillCapabilities_attach this
                (fillDefaults (docValid host) config)) as Hstage.
  rewrite fillDefaults_request in Hstage. specialize (Hstage Hreq).
  split; [reflexivity |]. split; [reflexivity |].
  split; [apply coalesce_nullish |].
  split; [intros H; apply or_falsy, nullish_falsy, H |].
  split; [intros n ->; reflexivity |].
  split; [intros s Hs ->; destruct s; [contradiction | reflexivity] |].
  split; [apply nullish_coalesce; reflexivity |].
  split; [apply nullish_or; reflexivity |].
  split; [reflexivity |].
  split; [apply coalesce_nullish |].
  split; [intros ->; reflexivity |].
  split; [reflexivity |].
  split; [apply coalesce_nullish |].
  split; [reflexivity |].
  split; [rewrite launch_stage_request; exact Hreq |].
  split; [apply launch_stage_debugMode |].
  split.
  - rewrite Hstage. read_props. unfold fillDefaults. read_props. reflexivity.
  - intros k Hdefaulted Hattach. rewrite Hstage.
    unfold defaultedFields in Hdefaulted. unfold attachFields in Hattach.
    rewrite !not_elem_of_cons in Hdefaulted.
    rewrite !not_elem_of_cons in Hattach.
    destruct Hdefaulted as (Hd1 & Hd2 & _).
    destruct Hattach as (Ha1 & Ha2 & Ha3 & Ha4 & Ha5 & _).
    rewrite !lookup_set.
    repeat match goal with
           | |- context [String.eqb ?lit k] =>
               destruct (String.eqb_spec lit k) as [Heq | _];
               [exfalso; congruence |]
           end.
    apply fillDefaults_get; assumption.
Qed.

Lemma resolve_attach_configuration_witness :
  (exists resolved,
     resolveDebugConfiguration Samples.resolver Samples.scriptHost None
       Samples.bareAttach
     = Return (Some (AttachConfiguration resolved))
     /\ get resolved "customPort" = Num 40123
     /\ get resolved "customHost" = Str "localhost"
     /\ get resolved "useCustomSocket" = Bool true
     /\ get resolved "supportsWriteToStdinEvent" = Bool true
     /\ get resolved "overwriteLoadAll" = Bool false)
  /\ (exists resolved,
        resolveDebugConfiguration Samples.resolver Samples.scriptHost None
          AttachSamples.explicitSocket
        = Return (Some (AttachConfiguration resolved))
        /\ get resolved "customPort" = Num 9000
        /\ get resolved "customHost" = Str "10.0.0.5"
        /\ get resolved "useCustomSocket" = Bool false
        /\ get resolved "overwriteLoadAll" = Bool false
        /\ resolved !! "splitOverwrittenOutput" = Some (Bool true)).
Proof.
  split.
  - destruct (resolve_attach_configuration Samples.resolver
                Samples.scriptHost None Samples.bareAttach)
      as (resolved & Hret & _ & _ & Hport & Hhost & _ & _ & _ & _ & _
          & Hsocket & _ & _ & Hstdin & Hload & _);
      [vm_compute; reflexivity |].
    exists resolved. split; [exact Hret |].
    refine (conj (Hport _) (conj (Hhost _) (conj (Hsocket _)
              (conj (Hstdin _) Hload)))); vm_compute; reflexivity.
  - destruct (resolve_attach_configuration Samples.resolver
                Samples.scriptHost None AttachSamples.explicitSocket)
      as (resolved & Hret & _ & _ & _ & _ & Hport & Hhost & _ & _ & _ & _
          & Hsocket & _ & _ & Hload & _ & _ & _ & Hframe);
      [vm_compute; reflexivity |].
    exists resolved. split; [exact Hret |].
    refine (conj (Hport 9000 _) (conj (Hhost "10.0.0.5"%string _ _)
              (conj (Hsocket _) (conj Hload _)))).
    + vm_compute. reflexivity.
    + discriminate.
    + vm_compute. reflexivity.
    + vm_compute. reflexivity.
    + rewrite Hframe.
      * vm_compute. reflexivity.
      * unfold defaultedFields. rewrite !not_elem_of_cons.
        repeat split; solve [discriminate | apply not_elem_of_nil].
      * unfold attachFields. rewrite !not_elem_of_cons.
        repeat split; solve [discriminate | apply not_elem_of_nil].
Defined.

(** C10.  The attach branch detects unset values in two ways: [customPort]
    is replaced only when it is [null] or [undefined], so an explicit 0 is
    kept, whereas [customHost] is replaced whenever it is falsy, so an
    explicit empty string gives way to the resolver's fallback host. *)
Theorem resolve_attach_unset_detection (this : t) (host : Host)
  (folder : option WorkspaceFolder) (config : Object) :
  get config "request" = Str "attach" ->
  exists resolved,
    resolveDebugConfiguration this host folder config
    = Return (Some (AttachConfiguration resolved))
    /\ (get config "customPort" = Num 0 ->
        get resolved "customPort" = Num 0)
    /\ (get config "customHost" = Str EmptyString ->
        get resolved "customHost" = Str (customHost this))
    /\ get resolved "customPort"
       = (if nullish (get config "customPort")
          then Num (customPort this) else get config "customPort")
    /\ get resolved "customHost"
       = (if toBoolean (get config "customHost")
          then get config "customHost" else Str (customHost this)).
Proof.
  intros Hreq. eexists. split; [apply resolve_attach, Hreq |].
  destruct (attach_stage_fields this (docValid host) config Hreq)
    as (Hport & Hhost & _).
  rewrite Hport, Hhost. repeat split.
  - intros ->. reflexivity.
  - intros ->. reflexivity.
Qed.

Lemma resolve_attach_unset_detection_witness :
  exists resolved,
    resolveDebugConfiguration Samples.resolver Samples.emptyHost None
      AttachSamples.zeroPortEmptyHost
    = Return (Some (AttachConfiguration resolved))
    /\ get resolved "customPort" = Num 0
    /\ get resolved "customHost" = Str "localhost".
Proof.
  destruct (resolve_attach_unset_detection Samples.resolver Samples.emptyHost
              None AttachSamples.zeroPortEmptyHost)
    as (resolved & Hret & Hport & Hhost & _);
    [vm_compute; reflexivity |].
  exists resolved. split; [exact Hret |].
  refine (conj (Hport _) (Hhost _)); vm_compute; reflexivity.
Defined.

(** *** Unrecognised requests *)

(** The resolver has no [throw]: every call returns. *)
Lemma resolveDebugConfiguration_returns (this : t) (host : Host)
  (folder : option WorkspaceFolder) (config : Object) :
  returns (resolveDebugConfiguration this host folder config) = true.
Proof. reflexivity. Qed.





(* ===================================================================== *)
(** ** Further properties of the resolver, the factory and the providers *)
(* ===================================================================== *)

Ltac in_list :=
  unfold capabilityFields, defaultedFields, attachFields, requiredFields,
    forcedLaunchFields; cbn [app];
  repeat first [apply list_elem_of_here | apply list_elem_of_further].

Ltac notin_list :=
  unfold capabilityFields, defaultedFields, attachFields, requiredFields,
    forcedLaunchFields; cbn [app];
  rewrite ?not_elem_of_app, ?not_elem_of_cons;
  repeat split; solve [discriminate | apply not_elem_of_nil].

(** Case analysis on a property name [k] that is compared with literals. *)
Ltac frame_key k H :=
  repeat match goal with
         | |- context [String.eqb ?lit k] =>
             destruct (String.eqb_spec lit k) as [<- | _];
             [exfalso; apply H; in_list |]
         end.

Lemma fillCapabilities_other (this : t) (config : Object) :
  get config "request" <> Str "launch" ->
  get config "request" <> Str "attach" ->
  fillCapabilities this config = config.
Proof.
  intros Hl%strictEqStr_false Ha%strictEqStr_false.
  unfold fillCapabilities. rewrite Hl, Ha. reflexivity.
Qed.

Lemma request_cases (v : Value) :
  v = Str "launch" \/ v = Str "attach"
  \/ (v <> Str "launch" /\ v <> Str "attach").
Proof.
  destruct (strictEqStr v "launch") eqn:Hl;
    [left; apply strictEqStr_true, Hl |].
  destruct (strictEqStr v "attach") eqn:Ha;
    [right; left; apply strictEqStr_true, Ha |].
  right; right. split; apply strictEqStr_false; assumption.
Qed.

(** The capability stage touches only the capability fields. *)
Lemma fillCapabilities_lookup (this : t) (config : Object) (k : string) :
  k ∉ capabilityFields ->
  fillCapabilities this config !! k = config !! k.
Proof.
  intros Hk.
  destruct (request_cases (get config "request")) as [Hr | [Hr | [Hl Ha]]].
  - rewrite fillCapabilities_launch by exact Hr. rewrite !lookup_set.
    frame_key k Hk. reflexivity.
  - rewrite fillCapabilities_attach by exact Hr. rewrite !lookup_set.
    frame_key k Hk. reflexivity.
  - rewrite fillCapabilities_other by assumption. reflexivity.
Qed.

Lemma toBoolean_or (v w : Value) :
  toBoolean w = true -> toBoolean (or v w) = true.
Proof. unfold or. destruct (toBoolean v) eqn:H; auto. Qed.

Lemma or_idem (v w : Value) : or (or v w) w = or v w.
Proof.
  unfold or. destruct (toBoolean v) eqn:Hv; [rewrite Hv; reflexivity |].
  destruct (toBoolean w); reflexivity.
Qed.

Lemma wd_truthy (host : Host) (folder : option WorkspaceFolder) :
  toBoolean (Str (wd host folder)) = true.
Proof. unfold wd. destruct folder, (docValid host); reflexivity. Qed.

Lemma matchDebugMode_cases (wd : string) (config : Object)
  (strictConfig : StrictDebugConfiguration) :
  matchDebugMode wd config = Some strictConfig ->
  (get config "request" = Str "attach"
   /\ strictConfig = AttachConfiguration config)
  \/ (get config "request" <> Str "attach"
      /\ ((get config "debugMode" = Str "function"
           /\ strictConfig
              = FunctionDebugConfiguration
                  (fillMainFunction (fillFile (fillWorkingDirectory wd config))))
          \/ (get config "debugMode" = Str "file"
              /\ strictConfig
                 = FileDebugConfiguration
                     (fillFile (fillWorkingDirectory wd config)))
          \/ (get config "debugMode" = Str "workspace"
              /\ strictConfig
                 = WorkspaceDebugConfiguration
                     (fillWorkingDirectory wd config)))).
Proof.
  unfold matchDebugMode.
  destruct (strictEqStr (get config "request") "attach") eqn:Ha.
  { apply strictEqStr_true in Ha. intros [= <-]. left. auto. }
  apply strictEqStr_false in Ha. intros H. right. split; [exact Ha |].
  destruct (strictEqStr (get config "debugMode") "function") eqn:Hfun.
  { apply strictEqStr_true in Hfun. injection H as <-. left. auto. }
  destruct (strictEqStr (get config "debugMode") "file") eqn:Hfile.
  { apply strictEqStr_true in Hfile. injection H as <-. right; left. auto. }
  destruct (strictEqStr (get config "debugMode") "workspace") eqn:Hws.
  { apply strictEqStr_true in Hws. injection H as <-. right; right. auto. }
  discriminate H.
Qed.

Section Stage.

Variables (this : t) (docValid : bool) (config : Object).

Let stage := fillCapabilities this (fillDefaults docValid config).

Lemma stage_lookup (k : string) :
  k ∉ capabilityFields -> k ∉ defaultedFields ->
  stage !! k = config !! k.
Proof.
  intros Hc Hd. unfold stage. rewrite fillCapabilities_lookup by exact Hc.
  apply fillDefaults_get; intros ->; apply Hd; in_list.
Qed.

Lemma stage_allowGlobalDebugging :
  get stage "allowGlobalDebugging"
  = coalesce (get config "allowGlobalDebugging") (Bool true).
Proof.
  unfold stage.
  rewrite (get_lookup _ (fillDefaults docValid config))
    by (apply fillCapabilities_lookup; notin_list).
  unfold fillDefaults. read_props. reflexivity.
Qed.

Lemma stage_launchedWithoutConfig :
  launchedWithoutConfig stage = launchedWithoutConfig config.
Proof.
  unfold launchedWithoutConfig.
  rewrite !(get_lookup stage config) by (apply stage_lookup; notin_list).
  reflexivity.
Qed.

Lemma stage_debugMode_truthy : toBoolean (get stage "debugMode") = true.
Proof.
  unfold stage. rewrite launch_stage_debugMode. apply toBoolean_or.
  destruct docValid; reflexivity.
Qed.

Lemma stage_launch_capabilities :
  get config "request" = Str "launch" -> launchCapabilitiesSet this stage.
Proof.
  intros Hreq. unfold launchCapabilitiesSet, stage.
  rewrite fillCapabilities_launch
    by (rewrite fillDefaults_request; exact Hreq).
  read_props.
  set (caller := coalesce (get (fillDefaults docValid config) "overwriteHelp")
                   (Bool true)).
  assert (Hcaller : nullish caller = false)
    by (apply nullish_coalesce; reflexivity).
  split; [reflexivity |]. split; [reflexivity |]. split; [reflexivity |].
  unfold and. destruct (toBoolean caller) eqn:Ht.
  - split; [reflexivity |]. cbn. intros ->. auto.
  - rewrite Ht. split; [exact Hcaller | discriminate].
Qed.

Lemma stage_attach_fields :
  get config "request" = Str "attach" -> attachFieldsSet this stage.
Proof.
  intros Hreq.
  destruct (attach_stage_fields this docValid config Hreq)
    as (Hport & Hhost & Hsocket & Hstdin & Hload).
  fold stage in Hport, Hhost, Hsocket, Hstdin, Hload.
  unfold attachFieldsSet. rewrite Hport, Hhost, Hsocket, Hstdin, Hload.
  repeat split; try (apply nullish_coalesce; reflexivity).
  unfold or. destruct (toBoolean (get config "customHost")) eqn:Ht; auto.
Qed.

End Stage.

Lemma launchedWithoutConfig_false_iff (config : Object) :
  launchedWithoutConfig config = false
  <-> toBoolean (get config "type") = true
      \/ toBoolean (get config "request") = true
      \/ toBoolean (get config "name") = true.
Proof.
  unfold launchedWithoutConfig, not.
  destruct (toBoolean (get config "type")),
    (toBoolean (get config "request")),
    (toBoolean (get config "name")); cbn; intuition congruence.
Qed.

Lemma synthesized_invariant (this : t) (host : Host)
  (folder : option WorkspaceFolder) :
  StrictInvariant this
    (WorkspaceDebugConfiguration (packageLaunch this host folder))
  /\ StrictInvariant this (FileDebugConfiguration (fileLaunch this host folder))
  /\ StrictInvariant this
       (WorkspaceDebugConfiguration (workspaceLaunch this host folder)).
Proof.
  unfold StrictInvariant, launchFieldsSet, launchCapabilitiesSet,
    packageLaunch, fileLaunch, workspaceLaunch, wd.
  cbn [configOf].
  destruct this as [port hostname [|]], folder, (docValid host);
    repeat first [split | apply List.Forall_cons | apply List.Forall_nil];
    vm_compute; solve [reflexivity | discriminate | auto].
Qed.

Section Backfill.

Variables (this : t) (wd : string) (stage : Object).
Hypothesis Hgiven : launchedWithoutConfig stage = false.
Hypothesis Hmode : toBoolean (get stage "debugMode") = true.
Hypothesis Hglobal : nullish (get stage "allowGlobalDebugging") = false.
Hypothesis Hrequest : get stage "request" <> Str "attach".
Hypothesis Hcaps :
  get stage "request" = Str "launch" -> launchCapabilitiesSet this stage.
Hypothesis Hwd : toBoolean (Str wd) = true.

Lemma backfill_invariant :
  (get stage "debugMode" = Str "function" ->
   StrictInvariant this
     (FunctionDebugConfiguration
        (fillMainFunction (fillFile (fillWorkingDirectory wd stage)))))
  /\ (get stage "debugMode" = Str "file" ->
      StrictInvariant this
        (FileDebugConfiguration (fillFile (fillWorkingDirectory wd stage))))
  /\ (get stage "debugMode" = Str "workspace" ->
      StrictInvariant this
        (WorkspaceDebugConfiguration (fillWorkingDirectory wd stage))).
Proof.
  unfold StrictInvariant, launchFieldsSet, launchCapabilitiesSet,
    launchedWithoutConfig, fillMainFunction, fillFile, fillWorkingDirectory
    in *.
  cbn [configOf]. rewrite !Forall_cons, !Forall_nil. read_props.
  repeat split; try assumption;
    try (apply toBoolean_or; solve [exact Hwd | reflexivity]);
    try (apply Hcaps; assumption).
Qed.

End Backfill.

Lemma resolve_invariant (this : t) (host : Host)
  (folder : option WorkspaceFolder) (config : Object)
  (strictConfig : StrictDebugConfiguration) :
  resolveDebugConfiguration this host folder config
  = Return (Some strictConfig) ->
  StrictInvariant this strictConfig.
Proof.
  destruct (launchedWithoutConfig config) eqn:Hempty.
  - rewrite (resolve_synthesized _ _ _ _ Hempty). intros [= <-].
    destruct (synthesized_invariant this host folder) as (Hp & Hf & Hw).
    destruct (hasDescription host folder), (docValid host); assumption.
  - rewrite (resolve_given_config _ _ _ _ Hempty). intros [= Hmatch].
    set (stage := fillCapabilities this (fillDefaults (docValid host) config))
      in *.
    assert (Hgiven : launchedWithoutConfig stage = false)
      by (unfold stage; rewrite stage_launchedWithoutConfig; exact Hempty).
    assert (Hmode : toBoolean (get stage "debugMode") = true)
      by apply stage_debugMode_truthy.
    assert (Hglobal : nullish (get stage "allowGlobalDebugging") = false).
    { unfold stage. rewrite stage_allowGlobalDebugging.
      apply nullish_coalesce. reflexivity. }
    assert (Hreq : get stage "request" = get config "request")
      by apply launch_stage_request.
    destruct (matchDebugMode_cases _ _ _ Hmatch)
      as [[Hattach ->] | [Hnot Hcases]].
    + unfold StrictInvariant. cbn [configOf].
      repeat split; try assumption.
      all: apply stage_attach_fields; rewrite <- Hreq; exact Hattach.
    + assert (Hcaps : get stage "request" = Str "launch" ->
                      launchCapabilitiesSet this stage)
        by (intros H; apply stage_launch_capabilities; rewrite <- Hreq;
            exact H).
      destruct (backfill_invariant this (wd host folder) stage Hgiven Hmode
                  Hglobal Hnot Hcaps (wd_truthy host folder))
        as (Hfun & Hfile & Hws).
      destruct Hcases as [[Hm ->] | [[Hm ->] | [Hm ->]]]; auto.
Qed.

Lemma lookup_of_get (o : Object) (k : string) (v : Value) :
  get o k = v -> v <> Undefined -> o !! k = Some v.
Proof.
  unfold get. destruct (o !! k); cbn; intros <- H; [reflexivity | congruence].
Qed.

Lemma set_coalesce_set (o : Object) (k : string) (w : Value) :
  nullish (get o k) = false -> set k (coalesce (get o k) w) o = o.
Proof.
  intros H. rewrite coalesce_set by exact H.
  apply set_same, lookup_get_set, H.
Qed.

Lemma set_get_same (o : Object) (k : string) (v : Value) :
  get o k = v -> v <> Undefined -> set k v o = o.
Proof. intros H Hv. apply set_same, lookup_of_get; assumption. Qed.

Lemma fillDefaults_fixed (docValid : bool) (config : Object) :
  toBoolean (get config "debugMode") = true ->
  nullish (get config "allowGlobalDebugging") = false ->
  fillDefaults docValid config = config.
Proof.
  intros Hmode Hglobal. unfold fillDefaults.
  rewrite (set_or_truthy config "debugMode") by exact Hmode.
  apply set_coalesce_set, Hglobal.
Qed.

Lemma fillCapabilities_launch_fixed (this : t) (config : Object) :
  get config "request" = Str "launch" ->
  launchCapabilitiesSet this config ->
  fillCapabilities this config = config.
Proof.
  intros Hreq (Hout & Hin & Hprompt & Hset & Hhelp).
  rewrite fillCapabilities_launch by exact Hreq. rewrite set_set.
  rewrite (set_get_same config "supportsStdoutReading")
    by (exact Hout || discriminate).
  rewrite (set_get_same config "supportsWriteToStdinEvent")
    by (exact Hin || discriminate).
  rewrite (set_get_same config "supportsShowingPromptRequest")
    by (exact Hprompt || discriminate).
  rewrite coalesce_set by exact Hset.
  apply set_same. rewrite (lookup_get_set _ _ Hset). f_equal.
  unfold and. destruct (toBoolean (get config "overwriteHelp")) eqn:Ht;
    [| reflexivity].
  destruct (Hhelp eq_refl) as [-> ->]. reflexivity.
Qed.

Lemma fillCapabilities_attach_fixed (this : t) (config : Object) :
  get config "request" = Str "attach" ->
  attachFieldsSet this config ->
  fillCapabilities this config = config.
Proof.
  intros Hreq (Hport & Hhost & Hsocket & Hstdin & Hload).
  rewrite fillCapabilities_attach by exact Hreq.
  rewrite (set_coalesce_set config "customPort") by exact Hport.
  assert (Hhost' : set "customHost"
                     (or (get config "customHost") (Str (customHost this)))
                     config = config).
  { destruct Hhost as [Ht | Hfallback].
    - apply set_or_truthy, Ht.
    - apply set_get_same; [| unfold or; destruct (toBoolean _); [rewrite Hfallback|]; discriminate].
      rewrite Hfallback at 1. unfold or. destruct (toBoolean _); [symmetry; exact Hfallback | reflexivity]. }
  rewrite Hhost'.
  rewrite (set_coalesce_set config "useCustomSocket") by exact Hsocket.
  rewrite (set_coalesce_set config "supportsWriteToStdinEvent")
    by exact Hstdin.
  apply set_get_same; [exact Hload | discriminate].
Qed.

Lemma resolved_fixed_point (this : t) (host : Host)
  (folder : option WorkspaceFolder)
  (strictConfig : StrictDebugConfiguration) :
  StrictInvariant this strictConfig ->
  resolveDebugConfiguration this host folder (configOf strictConfig)
  = Return (Some strictConfig).
Proof.
  intros (Hgiven & Hmode & Hglobal & Htag).
  rewrite (resolve_given_config _ _ _ _ Hgiven).
  rewrite fillDefaults_fixed by assumption. f_equal.
  assert (Hlaunch :
            forall mode required,
              launchFieldsSet this mode required (configOf strictConfig) ->
              fillCapabilities this (configOf strictConfig)
              = configOf strictConfig).
  { intros mode required (Hnot & _ & _ & Hcaps).
    destruct (request_cases (get (configOf strictConfig) "request"))
      as [Hr | [Hr | [Hl Ha]]].
    - apply fillCapabilities_launch_fixed; auto.
    - contradiction.
    - apply fillCapabilities_other; assumption. }
  destruct strictConfig as [config | config | config | config];
    cbn [configOf] in *.
  - rewrite (Hlaunch _ _ Htag).
    destruct Htag as (Hnot%strictEqStr_false & Hm & Hreq & _).
    rewrite !Forall_cons in Hreq. destruct Hreq as (Hwd & Hfile & Hmain & _).
    unfold matchDebugMode. rewrite Hnot, Hm.
    cbn [strictEqStr String.eqb Ascii.eqb Bool.eqb].
    rewrite (set_or_truthy config "workingDirectory") by exact Hwd.
    rewrite (set_or_truthy config "file") by exact Hfile.
    rewrite (set_or_truthy config "mainFunction") by exact Hmain.
    reflexivity.
  - rewrite (Hlaunch _ _ Htag).
    destruct Htag as (Hnot%strictEqStr_false & Hm & Hreq & _).
    rewrite !Forall_cons in Hreq. destruct Hreq as (Hwd & Hfile & _).
    unfold matchDebugMode. rewrite Hnot, Hm.
    cbn [strictEqStr String.eqb Ascii.eqb Bool.eqb].
    rewrite (set_or_truthy config "workingDirectory") by exact Hwd.
    rewrite (set_or_truthy config "file") by exact Hfile.
    reflexivity.
  - rewrite (Hlaunch _ _ Htag).
    destruct Htag as (Hnot%strictEqStr_false & Hm & Hreq & _).
    rewrite !Forall_cons in Hreq. destruct Hreq as (Hwd & _).
    unfold matchDebugMode. rewrite Hnot, Hm.
    cbn [strictEqStr String.eqb Ascii.eqb Bool.eqb].
    rewrite (set_or_truthy config "workingDirectory") by exact Hwd.
    reflexivity.
  - destruct Htag as (Hreq & Hfields).
    rewrite fillCapabilities_attach_fixed by assumption.
    apply matchDebugMode_attach, Hreq.
Qed.

(** X2.  Every strict configuration the resolver returns satisfies the
    invariant of its tag: [debugMode] is truthy and [allowGlobalDebugging]
    is set; an attach configuration has [request = "attach"] and its socket
    fields set; a function, file or workspace configuration is not an
    attach request, has that [debugMode], has truthy [workingDirectory]
    (and [file], and [mainFunction], as the mode requires) and, if it is a
    launch request, has its capabilities set. *)
Theorem resolve_strict_invariant (this : t) (host : Host)
  (folder : option WorkspaceFolder) (config : Object)
  (strictConfig : StrictDebugConfiguration) :
  resolveDebugConfiguration this host folder config
  = Return (Some strictConfig) ->
  StrictInvariant this strictConfig.
Proof. apply resolve_invariant. Qed.

(** X3.  Resolution is idempotent, in any environment: resolving the
    configuration of a returned strict configuration again, under the same
    or another host and folder, returns that same strict configuration. *)
Theorem resolve_idempotent (this : t) (host host' : Host)
  (folder folder' : option WorkspaceFolder) (config : Object)
  (strictConfig : StrictDebugConfiguration) :
  resolveDebugConfiguration this host folder config
  = Return (Some strictConfig) ->
  resolveDebugConfiguration this host' folder' (configOf strictConfig)
  = Return (Some strictConfig).
Proof.
  intros H. apply resolved_fixed_point.
  apply (resolve_invariant this host folder config), H.
Qed.

Lemma resolve_null_iff_lemma (this : t) (host : Host)
  (folder : option WorkspaceFolder) (config : Object) :
  resolveDebugConfiguration this host folder config = Return None
  <-> launchedWithoutConfig config = false
      /\ get config "request" <> Str "attach"
      /\ toBoolean (get config "debugMode") = true
      /\ ~ recognizedMode (get config "debugMode").
Proof.
  destruct (launchedWithoutConfig config) eqn:Hempty.
  - rewrite (resolve_synthesized _ _ _ _ Hempty).
    split; [discriminate | intros [H _]; discriminate H].
  - rewrite (resolve_given_config _ _ _ _ Hempty).
    set (stage := fillCapabilities this (fillDefaults (docValid host) config)).
    assert (Hreq : get stage "request" = get config "request")
      by apply launch_stage_request.
    destruct (strictEqStr (get config "request") "attach") eqn:Ha.
    + apply strictEqStr_true in Ha.
      rewrite matchDebugMode_attach by (rewrite Hreq; exact Ha).
      split; [discriminate | intros (_ & H & _); contradiction].
    + apply strictEqStr_false in Ha.
      destruct (matchDebugMode_not_attach (wd host folder) stage)
        as [Hnone _]; [rewrite Hreq; exact Ha |].
      unfold stage in Hnone at 2.
      rewrite launch_stage_debugMode, recognizedMode_or in Hnone.
      split.
      * intros [= H]. apply Hnone in H.
        destruct (toBoolean (get config "debugMode")); tauto.
      * intros (_ & _ & Ht & Hn). f_equal. apply Hnone.
        intros [Hf | Hr]; [congruence | contradiction].
Qed.

(** X1.  The resolver returns [null] exactly when the configuration was
    given (not synthesised), is not an attach request, and has a truthy
    [debugMode] that is none of ["function"], ["file"], ["workspace"]. *)
Theorem resolve_null_iff (this : t) (host : Host)
  (folder : option WorkspaceFolder) (config : Object) :
  resolveDebugConfiguration this host folder config = Return None
  <-> launchedWithoutConfig config = false
      /\ get config "request" <> Str "attach"
      /\ toBoolean (get config "debugMode") = true
      /\ get config "debugMode" <> Str "function"
      /\ get config "debugMode" <> Str "file"
      /\ get config "debugMode" <> Str "workspace".
Proof.
  rewrite resolve_null_iff_lemma. unfold recognizedMode. tauto.
Qed.

Lemma get_of_lookup (o : Object) (k : string) (v : Value) :
  o !! k = Some v -> get o k = v.
Proof. unfold get. intros ->. reflexivity. Qed.

Lemma truthy_not_nullish (v : Value) :
  toBoolean v = true -> nullish v = false.
Proof. destruct v; cbn; congruence. Qed.

(** One assignment [o.k0 = F(o.k0)] seen from a property [k] that holds [v]. *)
Ltac kept_key k Hk :=
  rewrite ?get_set; cbn [String.eqb Ascii.eqb Bool.eqb];
  rewrite ?lookup_set;
  repeat match goal with
         | |- context [String.eqb ?lit k] =>
             destruct (String.eqb_spec lit k) as [<- | _];
             [rewrite ?(get_of_lookup _ _ _ Hk) |]
         end.

Lemma fillDefaults_preserve (docValid : bool) (config : Object)
  (k : string) (v : Value) :
  config !! k = Some v ->
  is_Some (fillDefaults docValid config !! k)
  /\ (toBoolean v = true -> fillDefaults docValid config !! k = Some v).
Proof.
  intros Hk. unfold fillDefaults. kept_key k Hk.
  - split; [eauto |]. intros Ht. rewrite coalesce_set
      by (apply truthy_not_nullish, Ht). reflexivity.
  - split; [eauto |]. intros Ht. rewrite or_truthy by exact Ht. reflexivity.
  - split; [eauto | intros _; exact Hk].
Qed.

Lemma fillCapabilities_preserve (this : t) (config : Object)
  (k : string) (v : Value) :
  config !! k = Some v ->
  is_Some (fillCapabilities this config !! k)
  /\ (toBoolean v = true -> k ∉ forcedLaunchFields ->
      k <> "overwriteLoadAll" ->
      fillCapabilities this config !! k = Some v).
Proof.
  intros Hk.
  destruct (request_cases (get config "request")) as [Hr | [Hr | [Hl Ha]]].
  - rewrite fillCapabilities_launch by exact Hr. kept_key k Hk.
    1-4: split; [eauto |]; intros _ Hforced _; exfalso; apply Hforced;
         in_list.
    split; [eauto | intros _ _ _; exact Hk].
  - rewrite fillCapabilities_attach by exact Hr. kept_key k Hk.
    + split; [eauto |]. intros _ _ H. congruence.
    + split; [eauto |]. intros Ht _ _. rewrite coalesce_set
        by (apply truthy_not_nullish, Ht). reflexivity.
    + split; [eauto |]. intros Ht _ _. rewrite coalesce_set
        by (apply truthy_not_nullish, Ht). reflexivity.
    + split; [eauto |]. intros Ht _ _. rewrite or_truthy by exact Ht.
      reflexivity.
    + split; [eauto |]. intros Ht _ _. rewrite coalesce_set
        by (apply truthy_not_nullish, Ht). reflexivity.
    + split; [eauto | intros _ _ _; exact Hk].
  - rewrite fillCapabilities_other by assumption.
    split; [eauto | intros _ _ _; exact Hk].
Qed.

Lemma matchDebugMode_preserve (wd : string) (config : Object)
  (strictConfig : StrictDebugConfiguration) (k : string) (v : Value) :
  matchDebugMode wd config = Some strictConfig ->
  config !! k = Some v ->
  is_Some (configOf strictConfig !! k)
  /\ (toBoolean v = true -> configOf strictConfig !! k = Some v).
Proof.
  intros Hmatch Hk.
  destruct (matchDebugMode_cases _ _ _ Hmatch)
    as [[_ ->] | [_ [[_ ->] | [[_ ->] | [_ ->]]]]];
    cbn [configOf];
    unfold fillMainFunction, fillFile, fillWorkingDirectory;
    kept_key k Hk;
    split; eauto; intros Ht; rewrite ?or_truthy by exact Ht;
    solve [reflexivity | exact Hk].
Qed.

Lemma touched_split (k : string) :
  k ∉ touchedFields ->
  (k ∉ defaultedFields) /\ (k ∉ capabilityFields) /\ (k ∉ requiredFields).
Proof.
  unfold touchedFields. rewrite !not_elem_of_app. tauto.
Qed.

Lemma pass_frame (this : t) (docValid : bool) (wd : string)
  (config : Object) (strictConfig : StrictDebugConfiguration) (k : string) :
  matchDebugMode wd (fillCapabilities this (fillDefaults docValid config))
  = Some strictConfig ->
  k ∉ touchedFields ->
  configOf strictConfig !! k = config !! k.
Proof.
  intros Hmatch (Hd & Hc & Hr)%touched_split.
  rewrite (matchDebugMode_get _ _ _ _ Hmatch)
    by (intros ->; apply Hr; in_list).
  apply stage_lookup; assumption.
Qed.

Lemma pass_preserve (this : t) (docValid : bool) (wd : string)
  (config : Object) (strictConfig : StrictDebugConfiguration)
  (k : string) (v : Value) :
  matchDebugMode wd (fillCapabilities this (fillDefaults docValid config))
  = Some strictConfig ->
  config !! k = Some v ->
  is_Some (configOf strictConfig !! k)
  /\ (toBoolean v = true -> k ∉ forcedLaunchFields ->
      k <> "overwriteLoadAll" ->
      configOf strictConfig !! k = Some v).
Proof.
  intros Hmatch Hk.
  destruct (fillDefaults_preserve docValid config k v Hk) as [[v1 H1] P1].
  destruct (fillCapabilities_preserve this _ k v1 H1) as [[v2 H2] _].
  destruct (matchDebugMode_preserve _ _ _ k v2 Hmatch H2) as [H3 _].
  split; [exact H3 |]. intros Ht Hforced Hload.
  specialize (P1 Ht).
  destruct (fillCapabilities_preserve this _ k v P1) as [_ P2].
  specialize (P2 Ht Hforced Hload).
  destruct (matchDebugMode_preserve _ _ _ k v Hmatch P2) as [_ P3].
  exact (P3 Ht).
Qed.

(** X7.  Resolving a given configuration never removes a property, never
    replaces a truthy value except in the four forced launch capabilities
    and [overwriteLoadAll], and leaves every property outside the assigned
    fields exactly as it was. *)
Theorem resolve_preserves (this : t) (host : Host)
  (folder : option WorkspaceFolder) (config : Object)
  (strictConfig : StrictDebugConfiguration) :
  launchedWithoutConfig config = false ->
  resolveDebugConfiguration this host folder config
  = Return (Some strictConfig) ->
  (forall k, is_Some (config !! k) -> is_Some (configOf strictConfig !! k))
  /\ (forall k v,
        config !! k = Some v -> toBoolean v = true ->
        k ∉ forcedLaunchFields -> k <> "overwriteLoadAll" ->
        configOf strictConfig !! k = Some v)
  /\ (forall k, k ∉ touchedFields ->
        configOf strictConfig !! k = config !! k).
Proof.
  intros Hgiven. rewrite (resolve_given_config _ _ _ _ Hgiven).
  intros [= Hmatch]. split; [| split].
  - intros k [v Hk]. apply (pass_preserve _ _ _ _ _ k v Hmatch Hk).
  - intros k v Hk. apply (pass_preserve _ _ _ _ _ k v Hmatch Hk).
  - intros k. apply (pass_frame _ _ _ _ _ k Hmatch).
Qed.

(** X8.  An attach request is resolved by assigning only [debugMode],
    [allowGlobalDebugging] and the five attach fields: [workingDirectory],
    [file] and [mainFunction] are not backfilled whatever [debugMode] is,
    the launch capabilities are not set, and [port] and [host] pass
    through. *)
Theorem resolve_attach_frame (this : t) (host : Host)
  (folder : option WorkspaceFolder) (config : Object) :
  get config "request" = Str "attach" ->
  exists resolved,
    resolveDebugConfiguration this host folder config
    = Return (Some (AttachConfiguration resolved))
    /\ forall k, k ∉ defaultedFields -> k ∉ attachFields ->
         resolved !! k = config !! k.
Proof.
  intros Hreq. eexists. split; [apply resolve_attach, Hreq |].
  intros k Hd Ha.
  rewrite fillCapabilities_attach
    by (rewrite fillDefaults_request; exact Hreq).
  rewrite !lookup_set. frame_key k Ha.
  apply fillDefaults_get; intros ->; apply Hd; in_list.
Qed.

(** X5.  In every strict configuration the resolver returns, for launch
    and attach alike, [allowGlobalDebugging] is the caller's value when
    that is set (an explicit [false] is kept) and [true] otherwise; it is
    never left unset. *)
Theorem resolve_allowGlobalDebugging (this : t) (host : Host)
  (folder : option WorkspaceFolder) (config : Object)
  (strictConfig : StrictDebugConfiguration) :
  resolveDebugConfiguration this host folder config
  = Return (Some strictConfig) ->
  get (configOf strictConfig) "allowGlobalDebugging"
  = (if launchedWithoutConfig config then Bool true
     else coalesce (get config "allowGlobalDebugging") (Bool true))
  /\ nullish (get (configOf strictConfig) "allowGlobalDebugging") = false.
Proof.
  intros Hres. split;
    [| apply (resolve_invariant _ _ _ _ _ Hres)].
  destruct (launchedWithoutConfig config) eqn:Hempty.
  - rewrite (resolve_synthesized _ _ _ _ Hempty) in Hres.
    injection Hres as <-.
    unfold packageLaunch, fileLaunch, workspaceLaunch, object.
    destruct (hasDescription host folder), (docValid host);
      cbn [configOf fold_left fst snd]; read_props; reflexivity.
  - rewrite (resolve_given_config _ _ _ _ Hempty) in Hres.
    injection Hres as Hmatch.
    rewrite (get_lookup _ _ _ (matchDebugMode_get _ _ _ "allowGlobalDebugging" Hmatch ltac:(discriminate) ltac:(discriminate) ltac:(discriminate))).
    apply stage_allowGlobalDebugging.
Qed.

(** X4.  A given configuration that is not an attach request and has no
    (or a falsy) [debugMode] is resolved as a file launch when a
    file-backed document is open and as a workspace launch otherwise, with
    [debugMode] set accordingly and the required fields backfilled; it is
    never rejected. *)
Theorem resolve_default_mode (this : t) (host : Host)
  (folder : option WorkspaceFolder) (config : Object) :
  launchedWithoutConfig config = false ->
  get config "request" <> Str "attach" ->
  toBoolean (get config "debugMode") = false ->
  exists resolved,
    resolveDebugConfiguration this host folder config
    = Return (Some (if docValid host
                    then FileDebugConfiguration resolved
                    else WorkspaceDebugConfiguration resolved))
    /\ get resolved "debugMode"
       = Str (if docValid host then "file" else "workspace")
    /\ get resolved "workingDirectory"
       = or (get config "workingDirectory") (Str (wd host folder))
    /\ (docValid host = true ->
        get resolved "file" = or (get config "file") (Str "${file}")).
Proof.
  intros Hgiven Hreq Hmode.
  rewrite (resolve_given_config _ _ _ _ Hgiven).
  set (stage := fillCapabilities this (fillDefaults (docValid host) config)).
  assert (Hsreq : strictEqStr (get stage "request") "attach" = false)
    by (apply strictEqStr_false; unfold stage;
        rewrite launch_stage_request; exact Hreq).
  assert (Hsmode : get stage "debugMode"
                   = Str (if docValid host then "file" else "workspace"))
    by (unfold stage; rewrite launch_stage_debugMode;
        apply or_falsy, Hmode).
  assert (Hkeep : forall k, k ∉ capabilityFields -> k ∉ defaultedFields ->
                    get stage k = get config k)
    by (intros k H1 H2; apply get_lookup, stage_lookup; assumption).
  unfold matchDebugMode. rewrite Hsreq, Hsmode.
  destruct (docValid host); cbn [strictEqStr String.eqb Ascii.eqb Bool.eqb];
    eexists; (split; [reflexivity |]); read_props;
    rewrite ?Hsmode, ?Hkeep by notin_list; auto.
  repeat split. discriminate.
Qed.

Lemma backfill_by_tag (this : t) (host : Host)
  (folder : option WorkspaceFolder) (config : Object)
  (strictConfig : StrictDebugConfiguration) :
  launchedWithoutConfig config = false ->
  resolveDebugConfiguration this host folder config
  = Return (Some strictConfig) ->
  let resolved := configOf strictConfig in
  let backfilled k fallback :=
    resolved !! k = Some (or (get config k) (Str fallback)) in
  let untouched k := resolved !! k = config !! k in
  match strictConfig with
  | FunctionDebugConfiguration _ =>
      backfilled "workingDirectory" (wd host folder)
      /\ backfilled "file" "${file}" /\ backfilled "mainFunction" "main"
  | FileDebugConfiguration _ =>
      backfilled "workingDirectory" (wd host folder)
      /\ backfilled "file" "${file}" /\ untouched "mainFunction"
  | WorkspaceDebugConfiguration _ =>
      backfilled "workingDirectory" (wd host folder)
      /\ untouched "file" /\ untouched "mainFunction"
  | AttachConfiguration _ =>
      untouched "workingDirectory"
      /\ untouched "file" /\ untouched "mainFunction"
  end.
Proof.
  intros Hgiven. rewrite (resolve_given_config _ _ _ _ Hgiven).
  intros [= Hmatch].
  set (stage := fillCapabilities this (fillDefaults (docValid host) config))
    in *.
  assert (Hkeep : forall k, k ∉ capabilityFields -> k ∉ defaultedFields ->
                    stage !! k = config !! k)
    by (intros k; apply stage_lookup).
  assert (Hget : forall k, k ∉ capabilityFields -> k ∉ defaultedFields ->
                   get stage k = get config k)
    by (intros k H1 H2; apply get_lookup, Hkeep; assumption).
  destruct (matchDebugMode_cases _ _ _ Hmatch)
    as [[_ ->] | [_ [[_ ->] | [[_ ->] | [_ ->]]]]];
    cbn [configOf];
    unfold fillMainFunction, fillFile, fillWorkingDirectory;
    read_props; rewrite ?Hget, ?Hkeep by notin_list; auto.
Qed.

(** X6.  Backfill by tag: a function configuration gets
    [workingDirectory], [file] and [mainFunction] as the caller's value or,
    when that is falsy, the working-directory placeholder, [${file}] and
    [main]; a file configuration the first two, leaving [mainFunction]
    untouched; a workspace configuration only [workingDirectory]; an attach
    configuration none of them. *)
Theorem resolve_backfill (this : t) (host : Host)
  (folder : option WorkspaceFolder) (config : Object)
  (strictConfig : StrictDebugConfiguration) :
  launchedWithoutConfig config = false ->
  resolveDebugConfiguration this host folder config
  = Return (Some strictConfig) ->
  let resolved := configOf strictConfig in
  let backfilled k fallback :=
    resolved !! k = Some (or (get config k) (Str fallback)) in
  let untouched k := resolved !! k = config !! k in
  match strictConfig with
  | FunctionDebugConfiguration _ =>
      backfilled "workingDirectory" (wd host folder)
      /\ backfilled "file" "${file}" /\ backfilled "mainFunction" "main"
  | FileDebugConfiguration _ =>
      backfilled "workingDirectory" (wd host folder)
      /\ backfilled "file" "${file}" /\ untouched "mainFunction"
  | WorkspaceDebugConfiguration _ =>
      backfilled "workingDirectory" (wd host folder)
      /\ untouched "file" /\ untouched "mainFunction"
  | AttachConfiguration _ =>
      untouched "workingDirectory"
      /\ untouched "file" /\ untouched "mainFunction"
  end.
Proof. apply backfill_by_tag. Qed.

Lemma createDebugAdapterDescriptor_ext
  (this : DebugAdapterDescriptorFactory.t) (config config' : Object) :
  (forall k, k ∈ transportFields -> config !! k = config' !! k) ->
  createDebugAdapterDescriptor this {| configuration := config |}
  = createDebugAdapterDescriptor this {| configuration := config' |}.
Proof.
  intros Hsame.
  assert (Hreq : config !! "request" = config' !! "request")
    by (apply Hsame; unfold transportFields; in_list).
  assert (Hargs : config !! "commandLineArgs" = config' !! "commandLineArgs")
    by (apply Hsame; unfold transportFields; in_list).
  assert (Hport : config !! "port" = config' !! "port")
    by (apply Hsame; unfold transportFields; in_list).
  assert (Hhost : config !! "host" = config' !! "host")
    by (apply Hsame; unfold transportFields; in_list).
  unfold createDebugAdapterDescriptor, hasProperty, get.
  cbn [configuration]. rewrite Hreq, Hargs, Hport, Hhost. reflexivity.
Qed.

(** X9.  Resolution does not change the transport: for a given
    configuration that resolves, [createDebugAdapterDescriptor] has the
    same outcome on the resolved configuration as on the raw one.  In
    particular the server of an attach session is taken from the caller's
    [port] and [host], not from [customPort] and [customHost]. *)
Theorem resolve_keeps_transport (this : t) (host : Host)
  (folder : option WorkspaceFolder) (config : Object)
  (strictConfig : StrictDebugConfiguration)
  (factory : DebugAdapterDescriptorFactory.t) :
  launchedWithoutConfig config = false ->
  resolveDebugConfiguration this host folder config
  = Return (Some strictConfig) ->
  createDebugAdapterDescriptor factory
    {| configuration := configOf strictConfig |}
  = createDebugAdapterDescriptor factory {| configuration := config |}.
Proof.
  intros Hgiven. rewrite (resolve_given_config _ _ _ _ Hgiven).
  intros [= Hmatch]. apply createDebugAdapterDescriptor_ext.
  intros k Hk. apply (pass_frame _ _ _ _ _ k Hmatch).
  unfold transportFields in Hk.
  rewrite !elem_of_cons, elem_of_nil in Hk.
  destruct Hk as [-> | [-> | [-> | [-> | []]]]];
    unfold touchedFields; cbn [app]; notin_list.
Qed.

(** X10.  A session launched without configuration always runs in process:
    the synthesised configuration is served by an inline adapter with the
    factory's help panel and no command line arguments, whatever the
    environment. *)
Theorem launched_without_config_in_process (this : t) (host : Host)
  (folder : option WorkspaceFolder) (config : Object)
  (factory : DebugAdapterDescriptorFactory.t) :
  launchedWithoutConfig config = true ->
  exists strictConfig,
    resolveDebugConfiguration this host folder config
    = Return (Some strictConfig)
    /\ createDebugAdapterDescriptor factory
         {| configuration := configOf strictConfig |}
       = Return (DebugAdapterInlineImplementation
                   {| adapter_helpPanel := helpPanel factory;
                      adapter_commandLineArgs := [] |}).
Proof.
  intros Hempty. eexists. split; [apply resolve_synthesized, Hempty |].
  apply createDebugAdapterDescriptor_launch; cbn [configuration];
    unfold packageLaunch, fileLaunch, workspaceLaunch, object;
    destruct (hasDescription host folder), (docValid host);
    cbn [configOf fold_left fst snd]; read_props;
    solve [reflexivity | apply lookup_empty].
Qed.

Lemma spread_throws (v : Value) (e : Exception) :
  spread v = Throw e -> exists message, e = TypeError message.
Proof. destruct v; cbn; intros [= <-]; eauto. Qed.

Lemma createDebugAdapterDescriptor_cases
  (this : DebugAdapterDescriptorFactory.t) (config : Object) :
  let outcome :=
    createDebugAdapterDescriptor this {| configuration := config |} in
  (get config "request" = Str "launch"
   /\ ((exists args,
          outcome = Return (DebugAdapterInlineImplementation
                              {| adapter_helpPanel := helpPanel this;
                                 adapter_commandLineArgs := args |}))
       \/ (exists message, outcome = Throw (TypeError message))))
  \/ (get config "request" = Str "attach"
      /\ outcome = Return (DebugAdapterServer
                             (or (get config "port") (Num 18721))
                             (or (get config "host") (Str "localhost"))))
  \/ (get config "request" <> Str "launch"
      /\ get config "request" <> Str "attach"
      /\ outcome = Throw (Error invalidRequestMessage)).
Proof.
  intros outcome. subst outcome.
  destruct (request_cases (get config "request")) as [Hr | [Hr | [Hl Ha]]].
  - left. split; [exact Hr |].
    unfold createDebugAdapterDescriptor. cbn [configuration]. rewrite Hr.
    cbn [strictEqStr String.eqb Ascii.eqb Bool.eqb].
    destruct (hasProperty "commandLineArgs" config); [| left; eauto].
    destruct (spread (get config "commandLineArgs")) as [items | e] eqn:Hs;
      cbn [bind]; [left; eauto |].
    right. destruct (spread_throws _ _ Hs) as [message ->]. eauto.
  - right; left. split; [exact Hr |].
    unfold createDebugAdapterDescriptor. cbn [configuration]. rewrite Hr.
    reflexivity.
  - right; right. split; [exact Hl |]. split; [exact Ha |].
    apply invalid_request_throws; assumption.
Qed.

(** X11.  The kind of outcome of [createDebugAdapterDescriptor] is decided
    by [request]: a server descriptor exactly for ["attach"], the
    invalid-request error exactly for a request that is neither ["launch"]
    nor ["attach"], and an inline adapter only for ["launch"]; whatever a
    launch returns is an inline adapter that holds the factory's help
    panel.  (A launch may still throw while it spreads
    [commandLineArgs].) *)
Theorem createDebugAdapterDescriptor_kind
  (this : DebugAdapterDescriptorFactory.t) (session : DebugSession) :
  let request := get (configuration session) "request" in
  let outcome := createDebugAdapterDescriptor this session in
  ((exists port host, outcome = Return (DebugAdapterServer port host))
   <-> request = Str "attach")
  /\ (outcome = Throw (Error invalidRequestMessage)
      <-> request <> Str "launch" /\ request <> Str "attach")
  /\ ((exists adapter,
         outcome = Return (DebugAdapterInlineImplementation adapter))
      -> request = Str "launch")
  /\ (request = Str "launch" ->
      forall descriptor,
        outcome = Return descriptor ->
        exists args,
          descriptor
          = DebugAdapterInlineImplementation
              {| adapter_helpPanel := helpPanel this;
                 adapter_commandLineArgs := args |}).
Proof.
  destruct session as [config]. cbv zeta. cbn [configuration].
  destruct (createDebugAdapterDescriptor_cases this config)
    as [(Hr & [(args & Ho) | (message & Ho)])
       | [(Hr & Ho) | (Hl & Ha & Ho)]];
    rewrite Ho.
  - split; [split; [intros (p & h & H); discriminate H | congruence] |].
    split; [split; [discriminate | intros [H _]; contradiction] |].
    split; [intros _; exact Hr | intros _ descriptor [= <-]; eauto].
  - split; [split; [intros (p & h & H); discriminate H | congruence] |].
    split; [split; [discriminate | intros [H _]; contradiction] |].
    split; [intros _; exact Hr | intros _ descriptor H; discriminate H].
  - split; [split; [intros _; exact Hr | eauto] |].
    split; [split; [discriminate | intros [_ H]; contradiction] |].
    split; [intros (a & H); discriminate H | congruence].
  - split; [split; [intros (p & h & H); discriminate H | contradiction] |].
    split; [split; auto |].
    split; [intros (a & H); discriminate H | contradiction].
Qed.

(** X12.  A server descriptor never carries a falsy address: its port and
    host are truthy, so never 0 and never the empty string. *)
Theorem createDebugAdapterDescriptor_server_address
  (this : DebugAdapterDescriptorFactory.t) (session : DebugSession)
  (port host : Value) :
  createDebugAdapterDescriptor this session
  = Return (DebugAdapterServer port host) ->
  toBoolean port = true /\ toBoolean host = true
  /\ port <> Num 0 /\ host <> Str EmptyString.
Proof.
  destruct session as [config].
  destruct (createDebugAdapterDescriptor_cases this config)
    as [(Hr & [(args & Ho) | (message & Ho)])
       | [(Hr & Ho) | (Hl & Ha & Ho)]];
    rewrite Ho; try discriminate.
  intros [= <- <-].
  assert (Hp : toBoolean (or (get config "port") (Num 18721)) = true)
    by (apply toBoolean_or; reflexivity).
  assert (Hh : toBoolean (or (get config "host") (Str "localhost")) = true)
    by (apply toBoolean_or; reflexivity).
  repeat split; try assumption.
  - intros H. rewrite H in Hp. discriminate Hp.
  - intros H. rewrite H in Hh. discriminate Hh.
Qed.

(** X13.  For a launch request the adapter gets no arguments when
    [commandLineArgs] is missing or an empty array; when it is an array,
    whatever the call returns is an adapter whose arguments are the
    elements of [commandLineArgs]; and when the property is present with a
    value that cannot be spread ([undefined], [null], a boolean, a number,
    an object) the call throws a [TypeError]. *)
Theorem createDebugAdapterDescriptor_launch_arguments
  (this : DebugAdapterDescriptorFactory.t) (session : DebugSession) :
  let config := configuration session in
  let outcome := createDebugAdapterDescriptor this session in
  let inProcess args :=
    DebugAdapterInlineImplementation
      {| adapter_helpPanel := helpPanel this;
         adapter_commandLineArgs := args |} in
  get config "request" = Str "launch" ->
  (config !! "commandLineArgs" = None -> outcome = Return (inProcess []))
  /\ (config !! "commandLineArgs" = Some (Arr []) ->
      outcome = Return (inProcess []))
  /\ (forall items descriptor,
        config !! "commandLineArgs" = Some (Arr items) ->
        outcome = Return descriptor ->
        descriptor = inProcess items)
  /\ (forall v,
        config !! "commandLineArgs" = Some v -> iterable v = false ->
        exists message, outcome = Throw (TypeError message)).
Proof.
  destruct session as [config]. cbv zeta. cbn [configuration]. intros Hreq.
  unfold createDebugAdapterDescriptor, hasProperty, get.
  cbn [configuration]. fold (get config "request"). rewrite Hreq.
  cbn [strictEqStr String.eqb Ascii.eqb Bool.eqb].
  split; [| split; [| split]].
  - intros ->. reflexivity.
  - intros ->. reflexivity.
  - intros items descriptor ->. cbn. intros [= <-]. reflexivity.
  - intros v -> Hv. destruct v; try discriminate Hv; cbn; eauto.
Qed.

Import DynamicDebugConfigurationProvider.

(** X14.  In every environment the dynamic provider lists the workspace
    launch first and the attach configuration last; the file and function
    launches are listed exactly when a file-backed document is open, the
    package launch exactly when the folder has a [DESCRIPTION], and nothing
    else is listed. *)
Theorem provideDebugConfigurations_shape (host : Host)
  (folder : option WorkspaceFolder) :
  let configs := DynamicDebugConfigurationProvider.provideDebugConfigurations
                   host folder in
  head configs = Some (workspaceTemplate (wd host folder))
  /\ last configs = Some attachTemplate
  /\ (fileTemplate (wd host folder) ∈ configs <-> docValid host = true)
  /\ (functionTemplate (wd host folder) ∈ configs <-> docValid host = true)
  /\ (packageTemplate (wd host folder) ∈ configs
      <-> hasDescription host folder = true)
  /\ length configs
     = (2 + (if docValid host then 2 else 0)
          + (if hasDescription host folder then 1 else 0))%nat.
Proof.
  cbv zeta.
  unfold DynamicDebugConfigurationProvider.provideDebugConfigurations, push.
  set (w := wd host folder).
  assert (Hf1 : fileTemplate w <> workspaceTemplate w) by discriminate.
  assert (Hf2 : fileTemplate w <> attachTemplate) by discriminate.
  assert (Hf3 : fileTemplate w <> functionTemplate w) by discriminate.
  assert (Hn1 : functionTemplate w <> workspaceTemplate w) by discriminate.
  assert (Hn2 : functionTemplate w <> attachTemplate) by discriminate.
  assert (Hn3 : functionTemplate w <> fileTemplate w) by discriminate.
  assert (Hp2 : packageTemplate w <> attachTemplate) by discriminate.
  assert (Hp3 : packageTemplate w <> fileTemplate w) by discriminate.
  assert (Hp4 : packageTemplate w <> functionTemplate w) by discriminate.
  assert (Hp1 : packageTemplate w <> workspaceTemplate w)
    by (unfold packageTemplate, workspaceTemplate; intros [= H]).
  destruct (docValid host), (hasDescription host folder); cbn [app];
    rewrite ?elem_of_cons, ?elem_of_nil;
    repeat split; try reflexivity; try discriminate; try tauto;
    intuition congruence.
Qed.

Lemma pass_kept (this : t) (docValid : bool) (wd : string)
  (config : Object) (strictConfig : StrictDebugConfiguration)
  (k : string) (v : Value) :
  matchDebugMode wd (fillCapabilities this (fillDefaults docValid config))
  = Some strictConfig ->
  config !! k = Some v -> kept k v ->
  configOf strictConfig !! k = Some v.
Proof.
  intros Hmatch Hk [(Ht & Hf & Hl) | [-> Hset]].
  - apply (pass_preserve _ _ _ _ _ k v Hmatch Hk); assumption.
  - rewrite (matchDebugMode_get _ _ _ _ Hmatch) by discriminate.
    apply lookup_of_get.
    + rewrite stage_allowGlobalDebugging, (get_of_lookup _ _ _ Hk).
      apply coalesce_set, Hset.
    + intros ->. discriminate Hset.
Qed.

Lemma pass_mode (wd : string) (stage : Object)
  (strictConfig : StrictDebugConfiguration) :
  matchDebugMode wd stage = Some strictConfig ->
  (get stage "request" = Str "attach" /\ modeOf strictConfig = "attach")
  \/ (get stage "request" <> Str "attach"
      /\ get stage "debugMode" = Str (modeOf strictConfig)).
Proof.
  intros Hmatch.
  destruct (matchDebugMode_cases _ _ _ Hmatch)
    as [[H ->] | [H [[Hm ->] | [[Hm ->] | [Hm ->]]]]]; cbn [modeOf]; auto.
Qed.

(** A configuration that names its request and mode and holds only values
    that resolution keeps is resolved to a configuration of that mode that
    contains it. *)
Lemma resolve_template (this : t) (host : Host)
  (folder : option WorkspaceFolder)
  (template : StrictDebugConfiguration) :
  let config := configOf template in
  toBoolean (get config "type") = true ->
  (if isAttachConfiguration template
   then get config "request" = Str "attach"
   else get config "request" = Str "launch"
        /\ get config "debugMode" = Str (modeOf template)) ->
  (forall k v, config !! k = Some v -> kept k v) ->
  exists strictConfig,
    resolveDebugConfiguration this host folder config
    = Return (Some strictConfig)
    /\ modeOf strictConfig = modeOf template
    /\ config ⊆ configOf strictConfig.
Proof.
  intros config Htype Hmode Hkept.
  assert (Hgiven : launchedWithoutConfig config = false)
    by (apply launchedWithoutConfig_false_iff; auto).
  destruct (resolveDebugConfiguration this host folder config)
    as [[strictConfig |] | e] eqn:Hres.
  - exists strictConfig. split; [reflexivity |].
    rewrite (resolve_given_config _ _ _ _ Hgiven) in Hres.
    injection Hres as Hmatch. split.
    + destruct (pass_mode _ _ _ Hmatch) as [[Hr Hm] | [Hr Hm]];
        rewrite launch_stage_request in Hr.
      * destruct template; cbn [isAttachConfiguration modeOf] in *;
          solve [exact Hm | destruct Hmode as [Hl _]; congruence].
      * rewrite launch_stage_debugMode in Hm.
        destruct template; cbn [isAttachConfiguration modeOf] in *;
          try contradiction;
          destruct Hmode as [_ Hd]; rewrite Hd in Hm; cbn in Hm;
          congruence.
    + apply map_subseteq_spec. intros k v Hk.
      apply (pass_kept _ _ _ _ _ k v Hmatch Hk), (Hkept k v Hk).
  - exfalso. apply resolve_null_iff_lemma in Hres.
    destruct Hres as (_ & Ha & _ & Hn).
    destruct template; cbn [isAttachConfiguration modeOf] in *;
      try contradiction; destruct Hmode as [_ Hd]; apply Hn;
      unfold recognizedMode; rewrite Hd; auto.
  - pose proof (resolveDebugConfiguration_returns this host folder config)
      as Hr.
    rewrite Hres in Hr. discriminate Hr.
Qed.

(** The entries of an object literal, for a property name [k]. *)
Ltac literal_entries Hk k Hw :=
  unfold object in Hk; cbn [fold_left fst snd] in Hk;
  rewrite !lookup_set in Hk;
  repeat match type of Hk with
         | context [String.eqb ?lit k] =>
             destruct (String.eqb_spec lit k) as [<- | _];
             [injection Hk as <-;
              first [ left; split; [solve [reflexivity | exact Hw] |];
                      split; [notin_list | discriminate]
                    | right; split; reflexivity ] |]
         end;
  rewrite lookup_empty in Hk; discriminate Hk.

Lemma dynamic_templates_kept (w : string) :
  toBoolean (Str w) = true ->
  forall template k v,
    template ∈ [ workspaceTemplate w; fileTemplate w; functionTemplate w;
                 packageTemplate w; attachTemplate ] ->
    configOf template !! k = Some v -> kept k v.
Proof.
  intros Hw template k v Hin Hk.
  rewrite !elem_of_cons, elem_of_nil in Hin.
  destruct Hin as [-> | [-> | [-> | [-> | [-> | []]]]]];
    cbn [configOf workspaceTemplate fileTemplate functionTemplate
           packageTemplate attachTemplate] in Hk;
    literal_entries Hk k Hw.
Qed.

Lemma dynamic_templates_among (host : Host)
  (folder : option WorkspaceFolder) (template : StrictDebugConfiguration) :
  template ∈ DynamicDebugConfigurationProvider.provideDebugConfigurations
               host folder ->
  template ∈ [ workspaceTemplate (wd host folder);
               fileTemplate (wd host folder);
               functionTemplate (wd host folder);
               packageTemplate (wd host folder); attachTemplate ].
Proof.
  unfold DynamicDebugConfigurationProvider.provideDebugConfigurations, push.
  destruct (docValid host), (hasDescription host folder); cbn [app];
    rewrite !elem_of_cons, !elem_of_nil; tauto.
Qed.

Ltac template_head :=
  cbn [configOf isAttachConfiguration modeOf workspaceTemplate fileTemplate
         functionTemplate packageTemplate attachTemplate];
  unfold object; cbn [fold_left fst snd]; read_props;
  repeat split; reflexivity.

(** X15.  Every configuration the dynamic provider offers is accepted by
    the resolver, in any environment: it resolves to a strict configuration
    of the same tag that contains every property of the offered one
    unchanged. *)
Theorem dynamic_templates_resolve (this : t) (host host' : Host)
  (folder folder' : option WorkspaceFolder)
  (template : StrictDebugConfiguration) :
  template ∈ DynamicDebugConfigurationProvider.provideDebugConfigurations
               host folder ->
  exists strictConfig,
    resolveDebugConfiguration this host' folder' (configOf template)
    = Return (Some strictConfig)
    /\ modeOf strictConfig = modeOf template
    /\ configOf template ⊆ configOf strictConfig.
Proof.
  intros Hin%dynamic_templates_among.
  pose proof (dynamic_templates_kept _ (wd_truthy host folder) template)
    as Hkept.
  apply resolve_template.
  - rewrite !elem_of_cons, elem_of_nil in Hin.
    destruct Hin as [-> | [-> | [-> | [-> | [-> | []]]]]]; template_head.
  - rewrite !elem_of_cons, elem_of_nil in Hin.
    destruct Hin as [-> | [-> | [-> | [-> | [-> | []]]]]]; template_head.
  - intros k v. apply Hkept, Hin.
Qed.

(** X16.  Every configuration of the initial provider is accepted by the
    resolver, in any environment: it resolves to a strict configuration of
    the same tag that contains every property of the template unchanged. *)
Theorem initial_templates_resolve (this : t) (host : Host)
  (folder folder' : option WorkspaceFolder)
  (template : StrictDebugConfiguration) :
  template ∈ InitialDebugConfigurationProvider.provideDebugConfigurations
               folder ->
  exists strictConfig,
    resolveDebugConfiguration this host folder' (configOf template)
    = Return (Some strictConfig)
    /\ modeOf strictConfig = modeOf template
    /\ configOf template ⊆ configOf strictConfig.
Proof.
  unfold InitialDebugConfigurationProvider.provideDebugConfigurations.
  rewrite !elem_of_cons, elem_of_nil.
  intros [-> | [-> | [-> | [-> | [-> | []]]]]];
    (apply resolve_template;
     [ template_head | template_head
     | intros k v Hk; cbn [configOf] in Hk;
       literal_entries Hk k (eq_refl true) ]).
Qed.

Lemma activate_registered (context : ExtensionContext)
  (resolver : DebugConfigurationResolver.t)
  (factory : DebugAdapterDescriptorFactory.t) debugType debugType' trigger :
  DebugConfigurationProviderRegistration debugType
    (ResolverProvider resolver) trigger ∈ subscriptions (activate context) ->
  DebugAdapterDescriptorFactoryRegistration debugType' factory
    ∈ subscriptions (activate context) ->
  customPort resolver = portPromise context
  /\ customHost resolver = "localhost"
  /\ (supportsHelpViewer resolver = true <-> is_Some (helpPanel factory)).
Proof.
  unfold activate. cbn [subscriptions app].
  rewrite !elem_of_cons, !elem_of_nil.
  intros [H | [H | [H | [H | [H | [H | [H | []]]]]]]]; try discriminate H.
  intros [H' | [H' | [H' | [H' | [H' | [H' | [H' | []]]]]]]];
    try discriminate H'.
  injection H as _ -> _. injection H' as _ ->.
  cbn. repeat split.
  - destruct (rExtension context) as [[api |] |]; try discriminate.
    destruct (api_helpPanel api); [eauto | discriminate].
  - destruct (rExtension context) as [[api |] |];
      try (intros [x Hx]; discriminate Hx).
    destruct (api_helpPanel api); [reflexivity | intros [x Hx]; discriminate Hx].
Qed.

(** X17.  The resolver and the factory that [activate] registers agree on
    the help viewer: whenever that resolver returns a launch configuration
    with a truthy [overwriteHelp], the value is [true], that factory holds
    a help panel, and whatever the factory returns for the configuration is
    an inline adapter that is given this panel; without [commandLineArgs]
    it does return one. *)
Theorem activate_help_consistent (context : ExtensionContext)
  (resolver : DebugConfigurationResolver.t)
  (factory : DebugAdapterDescriptorFactory.t) (host : Host)
  (folder : option WorkspaceFolder) (config : Object)
  (strictConfig : StrictDebugConfiguration) :
  DebugConfigurationProviderRegistration "R-Debugger"
    (ResolverProvider resolver) None ∈ subscriptions (activate context) ->
  DebugAdapterDescriptorFactoryRegistration "R-Debugger" factory
    ∈ subscriptions (activate context) ->
  resolveDebugConfiguration resolver host folder config
  = Return (Some strictConfig) ->
  get (configOf strictConfig) "request" = Str "launch" ->
  toBoolean (get (configOf strictConfig) "overwriteHelp") = true ->
  let outcome :=
    createDebugAdapterDescriptor factory
      {| configuration := configOf strictConfig |} in
  get (configOf strictConfig) "overwriteHelp" = Bool true
  /\ exists panel,
       helpPanel factory = Some panel
       /\ (forall descriptor,
             outcome = Return descriptor ->
             exists args,
               descriptor
               = DebugAdapterInlineImplementation
                   {| adapter_helpPanel := Some panel;
                      adapter_commandLineArgs := args |})
       /\ (configOf strictConfig !! "commandLineArgs" = None ->
           outcome
           = Return (DebugAdapterInlineImplementation
                       {| adapter_helpPanel := Some panel;
                          adapter_commandLineArgs := [] |})).
Proof.
  intros Hres Hfac Hresolve Hreq Hhelp outcome.
  destruct (activate_registered _ _ _ _ _ _ Hres Hfac) as (_ & _ & Hiff).
  pose proof (resolve_invariant _ _ _ _ _ Hresolve) as (_ & _ & _ & Htag).
  assert (Hcaps : launchCapabilitiesSet resolver (configOf strictConfig)).
  { destruct strictConfig; cbn [configOf] in *.
    1-3: destruct Htag as (_ & _ & _ & Hcaps); exact (Hcaps Hreq).
    destruct Htag as [Ha _]. congruence. }
  destruct Hcaps as (_ & _ & _ & _ & Hgate).
  destruct (Hgate Hhelp) as [Htrue Hsupport].
  split; [exact Htrue |].
  apply Hiff in Hsupport. destruct Hsupport as [panel Hpanel].
  exists panel. split; [exact Hpanel |]. split.
  - intros descriptor Hreturn. unfold outcome in Hreturn.
    rewrite <- Hpanel.
    destruct (createDebugAdapterDescriptor_cases factory
                (configOf strictConfig))
      as [(_ & [(args & Ho) | (message & Ho)])
         | [(Hr & _) | (Hl & _)]]; try congruence.
    exists args. congruence.
  - intros Hmissing. rewrite <- Hpanel. unfold outcome.
    unfold createDebugAdapterDescriptor, hasProperty.
    cbn [configuration]. rewrite Hreq, Hmissing. reflexivity.
Qed.

(** X18.  With the resolver that [activate] registers, an attach request
    that sets neither [customPort] nor [customHost] is resolved with the
    port of the terminal handler and the host ["localhost"]. *)
Theorem activate_attach_fallback (context : ExtensionContext)
  (resolver : DebugConfigurationResolver.t) (host : Host)
  (folder : option WorkspaceFolder) (config : Object) :
  DebugConfigurationProviderRegistration "R-Debugger"
    (ResolverProvider resolver) None ∈ subscriptions (activate context) ->
  get config "request" = Str "attach" ->
  nullish (get config "customPort") = true ->
  nullish (get config "customHost") = true ->
  exists resolved,
    resolveDebugConfiguration resolver host folder config
    = Return (Some (AttachConfiguration resolved))
    /\ get resolved "customPort" = Num (portPromise context)
    /\ get resolved "customHost" = Str "localhost".
Proof.
  intros Hres Hreq Hport Hhost.
  assert (Hfac : DebugAdapterDescriptorFactoryRegistration "R-Debugger"
                   (DebugAdapterDescriptorFactory.new
                      match rExtension context with
                      | Some (Some api) => api_helpPanel api
                      | _ => None
                      end)
                 ∈ subscriptions (activate context)).
  { unfold activate. cbn [subscriptions app].
    rewrite !elem_of_cons. tauto. }
  destruct (activate_registered _ _ _ _ _ _ Hres Hfac) as (Hp & Hh & _).
  eexists. split; [apply resolve_attach, Hreq |].
  destruct (attach_stage_fields resolver (docValid host) config Hreq)
    as (Hport' & Hhost' & _).
  rewrite Hport', Hhost', Hp, Hh.
  rewrite coalesce_nullish by exact Hport.
  rewrite or_falsy by (apply nullish_falsy, Hhost). auto.
Qed.

Ltac by_computation := vm_compute; solve [reflexivity | discriminate].

Lemma resolve_strict_invariant_witness :
  exists strictConfig,
    resolveDebugConfiguration Samples.resolver Samples.scriptHost None
      ExtraSamples.launchFile = Return (Some strictConfig)
    /\ StrictInvariant Samples.resolver strictConfig.
Proof.
  eexists. split; [vm_compute; reflexivity |].
  apply (resolve_strict_invariant Samples.resolver Samples.scriptHost None
           ExtraSamples.launchFile).
  vm_compute. reflexivity.
Defined.

Lemma resolve_idempotent_witness :
  exists strictConfig,
    resolveDebugConfiguration Samples.resolver Samples.scriptHost None
      ExtraSamples.launchFile = Return (Some strictConfig)
    /\ resolveDebugConfiguration Samples.resolver Samples.packageHost
         (Some Samples.packageFolder) (configOf strictConfig)
       = Return (Some strictConfig).
Proof.
  eexists. split; [vm_compute; reflexivity |].
  apply (resolve_idempotent Samples.resolver Samples.scriptHost
           Samples.packageHost None (Some Samples.packageFolder)
           ExtraSamples.launchFile).
  vm_compute. reflexivity.
Defined.

Lemma resolve_default_mode_witness :
  exists resolved,
    resolveDebugConfiguration Samples.resolver Samples.scriptHost None
      ExtraSamples.launchFile
    = Return (Some (if docValid Samples.scriptHost
                    then FileDebugConfiguration resolved
                    else WorkspaceDebugConfiguration resolved))
    /\ get resolved "debugMode"
       = Str (if docValid Samples.scriptHost then "file" else "workspace")
    /\ get resolved "workingDirectory"
       = or (get ExtraSamples.launchFile "workingDirectory")
            (Str (wd Samples.scriptHost None))
    /\ (docValid Samples.scriptHost = true ->
        get resolved "file"
        = or (get ExtraSamples.launchFile "file") (Str "${file}")).
Proof.
  apply (resolve_default_mode Samples.resolver Samples.scriptHost None
           ExtraSamples.launchFile); by_computation.
Defined.

Lemma resolve_allowGlobalDebugging_witness :
  exists strictConfig,
    resolveDebugConfiguration Samples.resolver Samples.scriptHost None
      ExtraSamples.launchFile = Return (Some strictConfig)
    /\ get (configOf strictConfig) "allowGlobalDebugging"
       = (if launchedWithoutConfig ExtraSamples.launchFile then Bool true
          else coalesce (get ExtraSamples.launchFile "allowGlobalDebugging")
                 (Bool true))
    /\ nullish (get (configOf strictConfig) "allowGlobalDebugging") = false.
Proof.
  eexists. split; [vm_compute; reflexivity |].
  apply (resolve_allowGlobalDebugging Samples.resolver Samples.scriptHost
           None ExtraSamples.launchFile).
  vm_compute. reflexivity.
Defined.

Lemma resolve_backfill_witness :
  exists resolved,
    resolveDebugConfiguration Samples.resolver Samples.scriptHost None
      ExtraSamples.launchFile
    = Return (Some (FileDebugConfiguration resolved))
    /\ resolved !! "workingDirectory"
       = Some (or (get ExtraSamples.launchFile "workingDirectory")
                  (Str (wd Samples.scriptHost None)))
    /\ resolved !! "file"
       = Some (or (get ExtraSamples.launchFile "file") (Str "${file}"))
    /\ resolved !! "mainFunction" = ExtraSamples.launchFile !! "mainFunction".
Proof.
  eexists. split; [vm_compute; reflexivity |].
  refine (resolve_backfill Samples.resolver Samples.scriptHost None
            ExtraSamples.launchFile (FileDebugConfiguration _) _ _);
    vm_compute; reflexivity.
Defined.

Lemma resolve_preserves_witness :
  exists strictConfig,
    resolveDebugConfiguration Samples.resolver Samples.scriptHost None
      ExtraSamples.launchFile = Return (Some strictConfig)
    /\ (forall k, is_Some (ExtraSamples.launchFile !! k) ->
          is_Some (configOf strictConfig !! k))
    /\ (forall k v,
          ExtraSamples.launchFile !! k = Some v -> toBoolean v = true ->
          k ∉ forcedLaunchFields -> k <> "overwriteLoadAll" ->
          configOf strictConfig !! k = Some v)
    /\ (forall k, k ∉ touchedFields ->
          configOf strictConfig !! k = ExtraSamples.launchFile !! k).
Proof.
  eexists. split; [vm_compute; reflexivity |].
  apply (resolve_preserves Samples.resolver Samples.scriptHost None
           ExtraSamples.launchFile); vm_compute; reflexivity.
Defined.

Lemma resolve_attach_frame_witness :
  exists resolved,
    resolveDebugConfiguration Samples.resolver Samples.scriptHost None
      Samples.attachRemote
    = Return (Some (AttachConfiguration resolved))
    /\ forall k, k ∉ defaultedFields -> k ∉ attachFields ->
         resolved !! k = Samples.attachRemote !! k.
Proof.
  apply (resolve_attach_frame Samples.resolver Samples.scriptHost None
           Samples.attachRemote); by_computation.
Defined.

Lemma resolve_keeps_transport_witness :
  exists strictConfig,
    resolveDebugConfiguration Samples.resolver Samples.scriptHost None
      Samples.attachRemote = Return (Some strictConfig)
    /\ createDebugAdapterDescriptor Samples.factory
         {| configuration := configOf strictConfig |}
       = createDebugAdapterDescriptor Samples.factory
           {| configuration := Samples.attachRemote |}.
Proof.
  eexists. split; [vm_compute; reflexivity |].
  apply (resolve_keeps_transport Samples.resolver Samples.scriptHost None
           Samples.attachRemote); vm_compute; reflexivity.
Defined.

Lemma launched_without_config_in_process_witness :
  exists strictConfig,
    resolveDebugConfiguration Samples.resolver Samples.packageHost
      (Some Samples.packageFolder) ∅ = Return (Some strictConfig)
    /\ createDebugAdapterDescriptor Samples.factory
         {| configuration := configOf strictConfig |}
       = Return (DebugAdapterInlineImplementation
                   {| adapter_helpPanel :=
                        DebugAdapterDescriptorFactory.helpPanel
                          Samples.factory;
                      adapter_commandLineArgs := [] |}).
Proof.
  apply (launched_without_config_in_process Samples.resolver
           Samples.packageHost (Some Samples.packageFolder) ∅
           Samples.factory); by_computation.
Defined.

Lemma createDebugAdapterDescriptor_kind_witness :
  get ExtraSamples.launchFile "request" = Str "launch"
  /\ forall descriptor,
       createDebugAdapterDescriptor Samples.factory
         {| configuration := ExtraSamples.launchFile |}
       = Return descriptor ->
       exists args,
         descriptor
         = DebugAdapterInlineImplementation
             {| adapter_helpPanel :=
                  DebugAdapterDescriptorFactory.helpPanel Samples.factory;
                adapter_commandLineArgs := args |}.
Proof.
  assert (Hreq : get ExtraSamples.launchFile "request" = Str "launch")
    by (vm_compute; reflexivity).
  split; [exact Hreq |].
  destruct (createDebugAdapterDescriptor_kind Samples.factory
              {| configuration := ExtraSamples.launchFile |})
    as (_ & _ & _ & Hlaunch).
  exact (Hlaunch Hreq).
Defined.

Lemma createDebugAdapterDescriptor_server_address_witness :
  toBoolean (Num 18721) = true /\ toBoolean (Str "localhost") = true
  /\ Num 18721 <> Num 0 /\ Str "localhost" <> Str EmptyString.
Proof.
  apply (createDebugAdapterDescriptor_server_address Samples.factory
           {| configuration := Samples.attachFalsy |}).
  vm_compute. reflexivity.
Defined.

Lemma createDebugAdapterDescriptor_launch_arguments_witness :
  createDebugAdapterDescriptor Samples.factory
    {| configuration := LaunchSamples.strictFunction |}
  = Return (DebugAdapterInlineImplementation
              {| adapter_helpPanel :=
                   DebugAdapterDescriptorFactory.helpPanel Samples.factory;
                 adapter_commandLineArgs := [] |})
  /\ (forall descriptor,
        createDebugAdapterDescriptor Samples.factory
          {| configuration := ExtraSamples.launchFile |}
        = Return descriptor ->
        descriptor
        = DebugAdapterInlineImplementation
            {| adapter_helpPanel :=
                 DebugAdapterDescriptorFactory.helpPanel Samples.factory;
               adapter_commandLineArgs := [Str "--vanilla"] |})
  /\ exists message,
       createDebugAdapterDescriptor Samples.factory
         {| configuration := ExtraSamples.launchBadArgs |}
       = Throw (TypeError message).
Proof.
  split; [| split].
  - refine (proj1 (createDebugAdapterDescriptor_launch_arguments
                     Samples.factory
                     {| configuration := LaunchSamples.strictFunction |} _)
              _); vm_compute; reflexivity.
  - intros descriptor.
    refine (proj1 (proj2 (proj2
              (createDebugAdapterDescriptor_launch_arguments
                 Samples.factory
                 {| configuration := ExtraSamples.launchFile |} _)))
              [Str "--vanilla"] descriptor _); vm_compute; reflexivity.
  - refine (proj2 (proj2 (proj2
              (createDebugAdapterDescriptor_launch_arguments
                 Samples.factory
                 {| configuration := ExtraSamples.launchBadArgs |} _)))
              (Num 3) _ _); vm_compute; reflexivity.
Defined.

Lemma dynamic_templates_resolve_witness :
  exists strictConfig,
    resolveDebugConfiguration Samples.resolver Samples.emptyHost None
      (configOf (fileTemplate "${fileDirname}"))
    = Return (Some strictConfig)
    /\ modeOf strictConfig = modeOf (fileTemplate "${fileDirname}")
    /\ configOf (fileTemplate "${fileDirname}") ⊆ configOf strictConfig.
Proof.
  apply (dynamic_templates_resolve Samples.resolver Samples.scriptHost
           Samples.emptyHost None None).
  apply list_elem_of_further, list_elem_of_here.
Defined.

Lemma initial_templates_resolve_witness :
  exists strictConfig,
    resolveDebugConfiguration Samples.resolver Samples.emptyHost None
      (configOf (AttachConfiguration (object
         [ ("type", Str "R-Debugger");
           ("request", Str "attach");
           ("name", Str "Attach to R process");
           ("splitOverwrittenOutput", Bool true) ])))
    = Return (Some strictConfig)
    /\ modeOf strictConfig = "attach"
    /\ configOf (AttachConfiguration (object
         [ ("type", Str "R-Debugger");
           ("request", Str "attach");
           ("name", Str "Attach to R process");
           ("splitOverwrittenOutput", Bool true) ]))
       ⊆ configOf strictConfig.
Proof.
  apply (initial_templates_resolve Samples.resolver Samples.emptyHost
           None None).
  do 4 apply list_elem_of_further. apply list_elem_of_here.
Defined.

Lemma activate_help_consistent_witness :
  exists strictConfig,
    resolveDebugConfiguration Samples.resolverWithHelp Samples.scriptHost None
      LaunchSamples.strictFunction = Return (Some strictConfig)
    /\ get (configOf strictConfig) "overwriteHelp" = Bool true
    /\ exists panel,
         DebugAdapterDescriptorFactory.helpPanel
           (DebugAdapterDescriptorFactory.new (Some ExtraSamples.helpPanel))
         = Some panel
         /\ (forall descriptor,
               createDebugAdapterDescriptor
                 (DebugAdapterDescriptorFactory.new
                    (Some ExtraSamples.helpPanel))
                 {| configuration := configOf strictConfig |}
               = Return descriptor ->
               exists args,
                 descriptor
                 = DebugAdapterInlineImplementation
                     {| adapter_helpPanel := Some panel;
                        adapter_commandLineArgs := args |})
         /\ (configOf strictConfig !! "commandLineArgs" = None ->
             createDebugAdapterDescriptor
               (DebugAdapterDescriptorFactory.new
                  (Some ExtraSamples.helpPanel))
               {| configuration := configOf strictConfig |}
             = Return (DebugAdapterInlineImplementation
                         {| adapter_helpPanel := Some panel;
                            adapter_commandLineArgs := [] |})).
Proof.
  eexists. split; [vm_compute; reflexivity |].
  apply (activate_help_consistent ExtraSamples.context
           Samples.resolverWithHelp
           (DebugAdapterDescriptorFactory.new (Some ExtraSamples.helpPanel))
           Samples.scriptHost None LaunchSamples.strictFunction).
  - apply list_elem_of_further, list_elem_of_here.
  - do 4 apply list_elem_of_further. apply list_elem_of_here.
  - vm_compute. reflexivity.
  - vm_compute. reflexivity.
  - vm_compute. reflexivity.
Defined.

Lemma activate_attach_fallback_witness :
  exists resolved,
    resolveDebugConfiguration Samples.resolverWithHelp Samples.scriptHost None
      Samples.bareAttach
    = Return (Some (AttachConfiguration resolved))
    /\ get resolved "customPort" = Num (portPromise ExtraSamples.context)
    /\ get resolved "customHost" = Str "localhost".
Proof.
  apply (activate_attach_fallback ExtraSamples.context
           Samples.resolverWithHelp Samples.scriptHost None
           Samples.bareAttach).
  - apply list_elem_of_further, list_elem_of_here.
  - vm_compute. reflexivity.
  - vm_compute. reflexivity.
  - vm_compute. reflexivity.
Defined.

Lemma or_string (v : Value) (fallback : string) :
  stringOrUnset v -> fallback <> EmptyString ->
  nonEmptyString (or v (Str fallback)).
Proof.
  intros [Hn | [s ->]] Hf.
  - rewrite or_falsy by (apply nullish_falsy, Hn). exists fallback. auto.
  - destruct s as [| c s].
    + rewrite or_falsy by reflexivity. exists fallback. auto.
    + rewrite or_truthy by reflexivity. eexists. split; [reflexivity |].
      discriminate.
Qed.

Lemma wd_nonempty (host : Host) (folder : option WorkspaceFolder) :
  wd host folder <> EmptyString.
Proof. unfold wd. destruct folder, (docValid host); discriminate. Qed.

Lemma nonEmptyString_lookup (o : Object) (k : string) (v : Value) :
  o !! k = Some v -> nonEmptyString v -> nonEmptyString (get o k).
Proof. intros H Hv. rewrite (get_of_lookup _ _ _ H). exact Hv. Qed.

(** X19.  When the caller's [workingDirectory], [file] and [mainFunction]
    fit their declared type (each unset or a string), the fields that the
    tag of the result requires are non-empty strings: all three for a
    function configuration, the first two for a file configuration,
    [workingDirectory] for a workspace configuration. *)
Theorem resolve_required_strings (this : t) (host : Host)
  (folder : option WorkspaceFolder) (config : Object)
  (strictConfig : StrictDebugConfiguration) :
  (forall k, k ∈ requiredFields -> stringOrUnset (get config k)) ->
  resolveDebugConfiguration this host folder config
  = Return (Some strictConfig) ->
  let resolved := configOf strictConfig in
  match strictConfig with
  | FunctionDebugConfiguration _ =>
      nonEmptyString (get resolved "workingDirectory")
      /\ nonEmptyString (get resolved "file")
      /\ nonEmptyString (get resolved "mainFunction")
  | FileDebugConfiguration _ =>
      nonEmptyString (get resolved "workingDirectory")
      /\ nonEmptyString (get resolved "file")
  | WorkspaceDebugConfiguration _ =>
      nonEmptyString (get resolved "workingDirectory")
  | AttachConfiguration _ => True
  end.
Proof.
  intros Htyped Hres.
  assert (Hwd : stringOrUnset (get config "workingDirectory"))
    by (apply Htyped; in_list).
  assert (Hfile : stringOrUnset (get config "file"))
    by (apply Htyped; in_list).
  assert (Hmain : stringOrUnset (get config "mainFunction"))
    by (apply Htyped; in_list).
  destruct (launchedWithoutConfig config) eqn:Hempty.
  - rewrite (resolve_synthesized _ _ _ _ Hempty) in Hres.
    injection Hres as <-.
    assert (Hw : nonEmptyString (Str (wd host folder)))
      by (eexists; split; [reflexivity | apply wd_nonempty]).
    unfold packageLaunch, fileLaunch, workspaceLaunch, object.
    destruct (hasDescription host folder), (docValid host);
      cbn [configOf fold_left fst snd]; read_props;
      repeat split; try exact Hw;
      (eexists; split; [reflexivity | discriminate]).
  - pose proof (backfill_by_tag _ _ _ _ _ Hempty Hres) as Hfill.
    cbv zeta in Hfill.
    destruct strictConfig; cbn [configOf] in *; [| | | exact I].
    + destruct Hfill as (H1 & H2 & H3).
      repeat split.
      * eapply nonEmptyString_lookup; [exact H1 |].
        apply or_string; [exact Hwd | apply wd_nonempty].
      * eapply nonEmptyString_lookup; [exact H2 |].
        apply or_string; [exact Hfile | discriminate].
      * eapply nonEmptyString_lookup; [exact H3 |].
        apply or_string; [exact Hmain | discriminate].
    + destruct Hfill as (H1 & H2 & _).
      repeat split.
      * eapply nonEmptyString_lookup; [exact H1 |].
        apply or_string; [exact Hwd | apply wd_nonempty].
      * eapply nonEmptyString_lookup; [exact H2 |].
        apply or_string; [exact Hfile | discriminate].
    + destruct Hfill as (H1 & _).
      eapply nonEmptyString_lookup; [exact H1 |].
      apply or_string; [exact Hwd | apply wd_nonempty].
Qed.

Lemma synthesizedTemplate_offered (host : Host)
  (folder : option WorkspaceFolder) :
  synthesizedTemplate host folder
  ∈ DynamicDebugConfigurationProvider.provideDebugConfigurations host folder.
Proof.
  unfold synthesizedTemplate,
    DynamicDebugConfigurationProvider.provideDebugConfigurations, push.
  destruct (docValid host), (hasDescription host folder); cbn [app];
    rewrite !elem_of_cons; tauto.
Qed.

(** X20.  Launching without a configuration resolves like choosing the
    matching configuration of the dynamic provider (package, else file,
    else workspace launch), which that provider does offer in the same
    environment: both resolve to the same tag, with the same object in the
    package case and with objects that differ only in [name] otherwise. *)
Theorem resolve_without_config_as_template (this : t) (host : Host)
  (folder : option WorkspaceFolder) (config : Object) :
  launchedWithoutConfig config = true ->
  let template := synthesizedTemplate host folder in
  template
  ∈ DynamicDebugConfigurationProvider.provideDebugConfigurations host folder
  /\ exists chosen synthesized,
       resolveDebugConfiguration this host folder (configOf template)
       = Return (Some chosen)
       /\ resolveDebugConfiguration this host folder config
          = Return (Some synthesized)
       /\ modeOf synthesized = modeOf chosen
       /\ configOf synthesized
          = (if hasDescription host folder then configOf chosen
             else set "name" (Str "Launch R Debugger") (configOf chosen)).
Proof.
  intros Hempty template. split; [apply synthesizedTemplate_offered |].
  exists (if hasDescription host folder then
            WorkspaceDebugConfiguration (packageLaunch this host folder)
          else if docValid host then
            FileDebugConfiguration
              (set "name" (Str "Debug R-File") (fileLaunch this host folder))
          else
            WorkspaceDebugConfiguration
              (set "name" (Str "Launch R-Workspace")
                 (workspaceLaunch this host folder))).
  exists (if hasDescription host folder then
            WorkspaceDebugConfiguration (packageLaunch this host folder)
          else if docValid host then
            FileDebugConfiguration (fileLaunch this host folder)
          else
            WorkspaceDebugConfiguration (workspaceLaunch this host folder)).
  split; [| split; [apply resolve_synthesized, Hempty |]].
  - unfold resolveDebugConfiguration, template, synthesizedTemplate,
      packageLaunch, fileLaunch, workspaceLaunch, wd.
    destruct this as [port hostname [|]], (docValid host),
      (hasDescription host folder), folder; vm_compute; reflexivity.
  - unfold packageLaunch, fileLaunch, workspaceLaunch, wd.
    destruct this as [port hostname [|]], (docValid host),
      (hasDescription host folder), folder;
      (split; [reflexivity |]); cbn [configOf];
      apply map_eq; intros k; vm_compute; reflexivity.
Qed.

Lemma resolve_required_strings_witness :
  exists strictConfig,
    resolveDebugConfiguration Samples.resolver Samples.scriptHost None
      LaunchSamples.strictFunction = Return (Some strictConfig)
    /\ match strictConfig with
       | FunctionDebugConfiguration resolved =>
           nonEmptyString (get resolved "workingDirectory")
           /\ nonEmptyString (get resolved "file")
           /\ nonEmptyString (get resolved "mainFunction")
       | _ => False
       end.
Proof.
  eexists. split; [vm_compute; reflexivity |].
  refine (resolve_required_strings Samples.resolver Samples.scriptHost None
            LaunchSamples.strictFunction (FunctionDebugConfiguration _) _ _).
  - intros k Hk. unfold requiredFields in Hk.
    rewrite !elem_of_cons, elem_of_nil in Hk.
    destruct Hk as [-> | [-> | [-> | []]]]; right; eexists;
      vm_compute; reflexivity.
  - vm_compute. reflexivity.
Defined.

Lemma resolve_without_config_as_template_witness :
  synthesizedTemplate Samples.scriptHost None
  ∈ DynamicDebugConfigurationProvider.provideDebugConfigurations
      Samples.scriptHost None
  /\ exists chosen synthesized,
       resolveDebugConfiguration Samples.resolver Samples.scriptHost None
         (configOf (synthesizedTemplate Samples.scriptHost None))
       = Return (Some chosen)
       /\ resolveDebugConfiguration Samples.resolver Samples.scriptHost None ∅
          = Return (Some synthesized)
       /\ modeOf synthesized = modeOf chosen
       /\ configOf synthesized
          = (if hasDescription Samples.scriptHost None then configOf chosen
             else set "name" (Str "Launch R Debugger") (configOf chosen)).
Proof.
  apply (resolve_without_config_as_template Samples.resolver
           Samples.scriptHost None ∅).
  vm_compute. reflexivity.
Defined.

